(* ===================================================================== *)
(* gemini_pipeline.py: the BibTeX/Gemini literature-review pipeline.     *)
(*                                                                       *)
(* A shallow embedding of the script and the properties of its citekey   *)
(* resolver, its per-document loop and its handling of the shared        *)
(* reference manual.                                                     *)
(*                                                                       *)
(* Strings are byte strings (UTF-8).  The script only ever compares      *)
(* against the ASCII characters ';' ':' '/' '.' and the ASCII words      *)
(* ".pdf" and ".html"; no non-ASCII code point lower-cases to one of the *)
(* letters p d f h t m l, and every byte of a multi-byte UTF-8 sequence  *)
(* is >= 128, so byte-wise splitting and ASCII lower-casing decide the   *)
(* same tests as Python's str methods do on code points.                 *)
(* ===================================================================== *)

From Stdlib Require Import ZArith Ascii String List Bool Lia.
From stdpp Require Import base option list strings gmap pretty.

Local Open Scope string_scope.
Local Open Scope list_scope.

(* --------------------------------------------------------------------- *)
(* Python's str methods, as far as the script uses them                  *)
(* --------------------------------------------------------------------- *)
Module PyStr.

(** [c.lower()] on one ASCII character. *)
Definition lower_ascii (c : ascii) : ascii :=
  let n := nat_of_ascii c in
  if (65 <=? n)%nat && (n <=? 90)%nat then ascii_of_nat (n + 32) else c.

(** [s.lower()]. *)
Fixpoint lower (s : string) : string :=
  match s with
  | EmptyString => EmptyString
  | String c r => String (lower_ascii c) (lower r)
  end.

(** [s.startswith(p)]. *)
Fixpoint startswith (s p : string) {struct p} : bool :=
  match p, s with
  | EmptyString, _ => true
  | String _ _, EmptyString => false
  | String a p', String b s' => Ascii.eqb a b && startswith s' p'
  end.

(** [sub in s]. *)
Fixpoint contains (sub s : string) : bool :=
  startswith s sub ||
  match s with
  | EmptyString => false
  | String _ r => contains sub r
  end.

(** [s.endswith(suf)]. *)
Fixpoint endswith (s suf : string) : bool :=
  String.eqb s suf ||
  match s with
  | EmptyString => false
  | String _ r => endswith r suf
  end.

(** [s.endswith((a, b))]: a tuple of suffixes. *)
Definition endswith_any (s : string) (sufs : list string) : bool :=
  existsb (endswith s) sufs.

(** [s.split(sep)] for a one-character separator; never the empty list. *)
Fixpoint split (sep : ascii) (s : string) : list string :=
  match s with
  | EmptyString => [EmptyString]
  | String c r =>
      if Ascii.eqb c sep then EmptyString :: split sep r
      else match split sep r with
           | h :: t => String c h :: t
           | [] => [String c EmptyString]
           end
  end.

(** [sep.join(l)]. *)
Fixpoint join (sep : string) (l : list string) : string :=
  match l with
  | [] => EmptyString
  | [x] => x
  | x :: r => x +:+ sep +:+ join sep r
  end.

(** [s.rfind(c)] for a one-character needle: the last index, or -1. *)
Fixpoint rfind (c : ascii) (s : string) : Z :=
  match s with
  | EmptyString => (-1)%Z
  | String a r =>
      let i := rfind c r in
      if (0 <=? i)%Z then (i + 1)%Z
      else if Ascii.eqb a c then 0%Z else (-1)%Z
  end.

(** [s[:i]] and [s[i:]] for an index [0 <= i]. *)
Fixpoint slice_to (n : nat) (s : string) : string :=
  match n, s with
  | O, _ => EmptyString
  | S _, EmptyString => EmptyString
  | S k, String c r => String c (slice_to k r)
  end.

Fixpoint slice_from (n : nat) (s : string) : string :=
  match n, s with
  | O, _ => s
  | S _, EmptyString => EmptyString
  | S k, String _ r => slice_from k r
  end.

(** Does the character occur in the string? *)
Fixpoint mem (c : ascii) (s : string) : bool :=
  match s with
  | EmptyString => false
  | String a r => Ascii.eqb a c || mem c r
  end.

(** Truthiness of a str: non-empty. *)
Definition truthy (s : string) : bool :=
  match s with EmptyString => false | _ => true end.

End PyStr.

(* --------------------------------------------------------------------- *)
(* os.path (POSIX flavour), as far as the script uses it                 *)
(* --------------------------------------------------------------------- *)
Module OsPath.
Import PyStr.

(** [posixpath.basename]: [i = p.rfind('/') + 1; return p[i:]]. *)
Definition basename (p : string) : string :=
  slice_from (Z.to_nat (rfind "/" p + 1)) p.

(** [posixpath.join(a, b)] for a directory name [a] without a trailing
    slash; an absolute [b] replaces [a]. *)
Definition join (a b : string) : string :=
  if startswith b "/" then b
  else if PyStr.truthy a && negb (endswith a "/") then a +:+ "/" +:+ b
  else a +:+ b.

(** The scan of [_splitext] over the indices [lo <= i < hi]: are all
    of these characters dots? *)
Definition all_dots (p : string) (lo hi : nat) : bool :=
  forallb (fun c => Ascii.eqb c ".")
    (list_ascii_of_string (slice_to (hi - lo) (slice_from lo p))).

(** [genericpath._splitext(p, '/', None, '.')]: the extension starts at
    the last dot after the last slash, unless only dots precede it in
    the file name. *)
Definition splitext (p : string) : string * string :=
  let sepIndex := rfind "/" p in
  let dotIndex := rfind "." p in
  if (sepIndex <? dotIndex)%Z then
    if all_dots p (Z.to_nat (sepIndex + 1)) (Z.to_nat dotIndex)
    then (p, EmptyString)
    else (slice_to (Z.to_nat dotIndex) p, slice_from (Z.to_nat dotIndex) p)
  else (p, EmptyString).

End OsPath.

(* --------------------------------------------------------------------- *)
(* The citekey resolver                                                  *)
(* --------------------------------------------------------------------- *)
Module Resolver.
Import PyStr.

(** [s.lower().endswith(('.pdf', '.html'))] *)
Definition names_document (s : string) : bool :=
  endswith_any (lower s) [".pdf"; ".html"].

(** ['.pdf' in part.lower() or '.html' in part.lower()] *)
Definition mentions_document (part : string) : bool :=
  contains ".pdf" (lower part) || contains ".html" (lower part).

(** The inner loop: [for segment in reversed(path_segments)]. *)
Definition last_document_segment (path_segments : list string)
  : option string :=
  List.find names_document (rev path_segments).

(** The outer loop: [for part in parts].  A part that mentions a
    document but has no segment naming one falls through to the next. *)
Fixpoint scan_parts (parts : list string) : option string :=
  match parts with
  | [] => None
  | part :: rest =>
      if mentions_document part then
        match last_document_segment (split ":" part) with
        | Some segment => Some segment
        | None => scan_parts rest
        end
      else scan_parts rest
  end.

(** [parse_file_path_from_entry]; the argument is [None] for Python's
    [None] (the field is absent). *)
Definition parse_file_path_from_entry (file_field_string : option string)
  : option string :=
  match file_field_string with
  | None => None
  | Some s => if truthy s then scan_parts (split ";" s) else None
  end.

(** One iteration of the loop of [create_pdf_to_citekey_map] over an
    entry (a dict of field name to value). *)
Definition record_entry (mapping : gmap string string)
    (entry : gmap string string) : gmap string string :=
  let citekey := entry !! "ID" in
  let file_field := entry !! "file" in
  match citekey, file_field with
  | Some ck, Some ff =>
      if negb (truthy ck) || negb (truthy ff) then mapping
      else
        match parse_file_path_from_entry file_field with
        | Some pdf_path =>
            if truthy pdf_path
            then <[OsPath.basename pdf_path := ck]> mapping
            else mapping
        | None => mapping
        end
  | _, _ => mapping
  end.

Definition NO_FILE_ENTRIES_WARNING : string :=
  "  - WARNING: No valid 'file' entries found in the BibTeX file. The script may not find citekeys.".

(** [create_pdf_to_citekey_map]: the mapping and the lines it prints. *)
Definition create_pdf_to_citekey_map (entries : list (gmap string string))
  : gmap string string * list string :=
  let mapping := fold_left record_entry entries ∅ in
  (mapping,
   if bool_decide (mapping = ∅) then [NO_FILE_ENTRIES_WARNING] else []).

End Resolver.

(* --------------------------------------------------------------------- *)
(* The world the script runs in                                          *)
(* --------------------------------------------------------------------- *)
Module Pipeline.
Import PyStr Resolver.

Definition PAPERS_TO_READ_DIR : string := "papers_to_read".
Definition READ_PAPERS_DIR : string := "read_papers".
Definition BIBTEX_FILE_PATH : string := "references.bib".
Definition MASTER_PROMPT_FILE : string := "assets/master_prompt.txt".
Definition SIUNITX_MANUAL : string := "assets/siunitx.pdf".
Definition SUMMARIES_FILE : string := "paper_summaries.txt".
Definition API_KEY_PLACEHOLDER : string := "PASTE_YOUR_GEMINI_API_KEY_HERE".
Definition MODEL : string := "gemini-2.5-pro".

(** The newline character of Python's string literals. *)
Definition NL : string := String (ascii_of_nat 10) EmptyString.

(** Exceptions: the script tells [FileNotFoundError] from the rest. *)
Inductive exn : Type :=
| FileNotFoundError (msg : string)
| OtherError (msg : string).

(** [str(e)], as the f-strings print it. *)
Definition str_of_exn (e : exn) : string :=
  match e with FileNotFoundError m => m | OtherError m => m end.

(** The handle [genai.upload_file] returns. *)
Record File : Type := { name : string; uri : string; display_name : string }.

(** One element of the list given to [generate_content]. *)
Inductive part : Type :=
| Text (s : string)
| Attached (f : File).

(** The response of [generate_content]; reading [.text] may raise. *)
Record Response : Type := { text : exn + string }.

(** Which upload a remote call belongs to: the reference manual or a
    paper of the batch. *)
Inductive site : Type := Manual | Paper.

(** The calls made to the [genai] module, in order. *)
Inductive call : Type :=
| Configure (api_key : string)
| UploadFile (who : site) (path display : string)
| GenerateContent (model : string) (parts : list part) (timeout : nat)
| DeleteFile (who : site) (file_name : string).

(** What the script reads from its environment, and which of its calls
    fail.  Faults are keyed by the argument that identifies the call:
    the path of an upload, the paper being saved or moved, the remote
    name of a delete. *)
Record Env : Type := {
  GEMINI_API_KEY : option string;
  master_prompt_file : exn + string;
  bibtex_file : exn + list (gmap string string);
  manual_exists : bool;
  listdir_fault : option exn;
  upload_fault : string -> option exn;
  generate : list part -> exn + Response;
  open_fault : string -> option exn;
  move_fault : string -> option exn;
  delete_fault : string -> option exn
}.

(** What the script changes: its output, the two directories (None: the
    directory does not exist), the summaries file (None: not created
    yet), the files alive on the service, and the calls made so far. *)
Record World : Type := {
  stdout : list string;
  papers_to_read : option (gset string);
  read_papers : option (gset string);
  summaries : option string;
  remote : gset string;
  next_file : nat;
  calls : list call;
  slept : nat
}.

Definition set_stdout (f : list string -> list string) (w : World) : World :=
  {| stdout := f (stdout w); papers_to_read := papers_to_read w;
     read_papers := read_papers w; summaries := summaries w;
     remote := remote w; next_file := next_file w; calls := calls w;
     slept := slept w |}.

Definition set_dirs (p r : option (gset string)) (w : World) : World :=
  {| stdout := stdout w; papers_to_read := p; read_papers := r;
     summaries := summaries w; remote := remote w;
     next_file := next_file w; calls := calls w; slept := slept w |}.

Definition set_summaries (s : option string) (w : World) : World :=
  {| stdout := stdout w; papers_to_read := papers_to_read w;
     read_papers := read_papers w; summaries := s; remote := remote w;
     next_file := next_file w; calls := calls w; slept := slept w |}.

Definition set_remote (r : gset string) (n : nat) (w : World) : World :=
  {| stdout := stdout w; papers_to_read := papers_to_read w;
     read_papers := read_papers w; summaries := summaries w; remote := r;
     next_file := n; calls := calls w; slept := slept w |}.

Definition log_call (c : call) (w : World) : World :=
  {| stdout := stdout w; papers_to_read := papers_to_read w;
     read_papers := read_papers w; summaries := summaries w;
     remote := remote w; next_file := next_file w;
     calls := calls w ++ [c]; slept := slept w |}.

Definition add_sleep (n : nat) (w : World) : World :=
  {| stdout := stdout w; papers_to_read := papers_to_read w;
     read_papers := read_papers w; summaries := summaries w;
     remote := remote w; next_file := next_file w; calls := calls w;
     slept := slept w + n |}.

(** Computations that change the world and either return or raise. *)
Definition M (A : Type) : Type := World -> (exn + A) * World.

Definition ret {A} (a : A) : M A := fun w => (inr a, w).

Definition raise {A} (e : exn) : M A := fun w => (inl e, w).

Definition bind {A B} (m : M A) (k : A -> M B) : M B :=
  fun w =>
    match m w with
    | (inr a, w') => k a w'
    | (inl e, w') => (inl e, w')
    end.

(** [try: body except ...: handler]; a handler that answers [None] does
    not match the exception, which then propagates. *)
Definition try_except {A} (body : M A) (handler : exn -> option (M A))
  : M A :=
  fun w =>
    match body w with
    | (inr a, w') => (inr a, w')
    | (inl e, w') =>
        match handler e with
        | Some h => h w'
        | None => (inl e, w')
        end
    end.

Definition modify (f : World -> World) : M unit := fun w => (inr tt, f w).

Definition get : M World := fun w => (inr w, w).

Definition print (line : string) : M unit :=
  modify (set_stdout (fun out => out ++ [line])).

(** Fail with the fault, if there is one. *)
Definition check_fault (fault : option exn) : M unit :=
  match fault with
  | Some e => raise e
  | None => ret tt
  end.

Declare Scope pipeline_scope.
Delimit Scope pipeline_scope with py.
Notation "x <- m ;; k" := (bind m (fun x => k))
  (at level 100, m at next level, k at level 200, right associativity)
  : pipeline_scope.
Notation "m ;; k" := (bind m (fun _ => k))
  (at level 100, k at level 200, right associativity) : pipeline_scope.
Local Open Scope pipeline_scope.

(** The handle the service hands out for its [n]-th file. *)
Definition fresh_file (n : nat) (display : string) : File :=
  {| name := "files/" +:+ pretty n;
     uri := "https://generativelanguage.googleapis.com/v1beta/files/"
              +:+ pretty n;
     display_name := display |}.

Section WithEnv.
Context (env : Env).

(** [genai.upload_file(path=..., display_name=...)] *)
Definition upload_file (who : site) (path display : string) : M File :=
  modify (log_call (UploadFile who path display));;
  check_fault (upload_fault env path);;
  w <- get;;
  let f := fresh_file (next_file w) display in
  modify (set_remote ({[name f]} ∪ remote w) (S (next_file w)));;
  ret f.

(** [model.generate_content(parts, request_options={'timeout': t})] *)
Definition generate_content (model : string) (parts : list part)
    (timeout : nat) : M Response :=
  modify (log_call (GenerateContent model parts timeout));;
  match generate env parts with
  | inl e => raise e
  | inr response => ret response
  end.

(** [genai.delete_file(name)] *)
Definition delete_file (who : site) (file_name : string) : M unit :=
  modify (log_call (DeleteFile who file_name));;
  check_fault (delete_fault env file_name);;
  modify (fun w => set_remote (remote w ∖ {[file_name]}) (next_file w) w).

(** The header line written before a summary. *)
Definition section_header (citekey : string) : string :=
  "\section*{" +:+ citekey +:+ "}" +:+ NL +:+ NL.

Definition SEPARATOR : string := NL +:+ NL +:+ "---" +:+ NL +:+ NL.

Definition append_to_summaries (data : string) : M unit :=
  modify (fun w =>
    set_summaries (Some (default "" (summaries w) +:+ data)) w).

(** The [with open(SUMMARIES_FILE, 'a')] block: the header is written
    before [response.text] is read, and what was written stays in the
    file when reading the text raises. *)
Definition append_summary (pdf_file citekey : string)
    (response : Response) : M unit :=
  check_fault (open_fault env pdf_file);;
  append_to_summaries (section_header citekey);;
  match text response with
  | inl e => raise e
  | inr summary =>
      append_to_summaries summary;;
      append_to_summaries SEPARATOR
  end.

(** [shutil.move(pdf_path, destination_path)] *)
Definition move (pdf_file pdf_path : string) : M unit :=
  check_fault (move_fault env pdf_path);;
  w <- get;;
  match papers_to_read w, read_papers w with
  | Some pending, Some archive =>
      if bool_decide (pdf_file ∈ pending)
      then modify (set_dirs (Some (pending ∖ {[pdf_file]}))
                            (Some ({[pdf_file]} ∪ archive)))
      else raise (FileNotFoundError pdf_path)
  | _, _ => raise (FileNotFoundError pdf_path)
  end.

(** [os.listdir(PAPERS_TO_READ_DIR)] *)
Definition listdir : M (list string) :=
  check_fault (listdir_fault env);;
  w <- get;;
  match papers_to_read w with
  | Some pending => ret (elements pending)
  | None => raise (FileNotFoundError PAPERS_TO_READ_DIR)
  end.

Definition sleep (seconds : nat) : M unit := modify (add_sleep seconds).

(** [setup_directories]; the assets directory is not tracked. *)
Definition setup_directories : M unit :=
  modify (fun w =>
    set_dirs (Some (default ∅ (papers_to_read w)))
             (Some (default ∅ (read_papers w))) w);;
  print "-> Directories are set up.".

(** Line 173: [pdf_citekey_map.get(pdf_file, splitext(pdf_file)[0])] *)
Definition resolve_citekey (pdf_citekey_map : gmap string string)
    (pdf_file : string) : string :=
  default (OsPath.splitext pdf_file).1 (pdf_citekey_map !! pdf_file).

Definition fallback_warning (pdf_file : string) : string :=
  "  - WARNING: Could not find citekey for '" +:+ pdf_file +:+ "' in '"
    +:+ BIBTEX_FILE_PATH +:+ "'. Using filename as fallback.".

Definition found_notice (citekey : string) : string :=
  "  - Found citekey: '" +:+ citekey +:+ "'".

(** Lines 174-177. *)
Definition announce_citekey (pdf_file citekey : string) : M unit :=
  if String.eqb citekey (OsPath.splitext pdf_file).1
  then print (fallback_warning pdf_file)
  else print (found_notice citekey).

(** Lines 187-190. *)
Definition prompt_parts (master_prompt : string)
    (siunitx_manual_file : option File) (uploaded_file : File)
  : list part :=
  [Text master_prompt]
    ++ match siunitx_manual_file with
       | Some manual => [Attached manual]
       | None => []
       end
    ++ [Attached uploaded_file].

(** The body of the [try] of one iteration, lines 180-211. *)
Definition process_steps (master_prompt : string)
    (siunitx_manual_file : option File) (pdf_file citekey : string)
  : M unit :=
  let pdf_path := OsPath.join PAPERS_TO_READ_DIR pdf_file in
  print "  - Uploading paper to Gemini...";;
  uploaded_file <- upload_file Paper pdf_path pdf_file;;
  print ("  - Upload successful! File URI: " +:+ uri uploaded_file);;
  print "  - Generating summary...";;
  response <- generate_content MODEL
                (prompt_parts master_prompt siunitx_manual_file
                              uploaded_file) 600;;
  print "  - Saving summary...";;
  append_summary pdf_file citekey response;;
  print ("  - Summary for '" +:+ citekey +:+ "' appended to '"
           +:+ SUMMARIES_FILE +:+ "'.");;
  print "  - Archiving processed file...";;
  move pdf_file pdf_path;;
  print ("  - Moved '" +:+ pdf_file +:+ "' to '" +:+ READ_PAPERS_DIR
           +:+ "'.");;
  print "  - Deleting uploaded paper from service...";;
  delete_file Paper (name uploaded_file).

Definition processing_banner (pdf_file : string) : string :=
  NL +:+ "--- Processing: " +:+ pdf_file +:+ " ---".

Definition error_report (pdf_file : string) (e : exn) : string :=
  NL +:+ "  - ERROR: An error occurred while processing " +:+ pdf_file
    +:+ ": " +:+ str_of_exn e.

(** One iteration of the loop, lines 169-219.  The handler ends with
    [continue], so the pause is taken only after a clean iteration. *)
Definition process_paper (master_prompt : string)
    (pdf_citekey_map : gmap string string)
    (siunitx_manual_file : option File) (pdf_file : string) : M unit :=
  print (processing_banner pdf_file);;
  let citekey := resolve_citekey pdf_citekey_map pdf_file in
  announce_citekey pdf_file citekey;;
  completed <-
    try_except
      (process_steps master_prompt siunitx_manual_file pdf_file citekey;;
       ret true)
      (fun e => Some (
         print (error_report pdf_file e);;
         print "  - Skipping this file and moving to the next one.";;
         ret false));;
  if completed : bool then sleep 2 else ret tt.

(** [for pdf_file in pdf_files: ...] *)
Fixpoint process_all (master_prompt : string)
    (pdf_citekey_map : gmap string string)
    (siunitx_manual_file : option File) (pdf_files : list string)
  : M unit :=
  match pdf_files with
  | [] => ret tt
  | pdf_file :: rest =>
      process_paper master_prompt pdf_citekey_map siunitx_manual_file
                    pdf_file;;
      process_all master_prompt pdf_citekey_map siunitx_manual_file rest
  end.

(** Lines 117-124: [None] stands for the early [return]. *)
Definition load_master_prompt : M (option string) :=
  try_except
    (master_prompt <- match master_prompt_file env with
                      | inl e => raise e
                      | inr content => ret content
                      end;;
     print ("-> Successfully loaded master prompt from '"
              +:+ MASTER_PROMPT_FILE +:+ "'.");;
     ret (Some master_prompt))
    (fun e =>
       match e with
       | FileNotFoundError _ => Some (
           print (NL +:+ "ERROR: Master prompt file not found at '"
                    +:+ MASTER_PROMPT_FILE +:+ "'.");;
           print "Please create this file in the 'assets' directory. Exiting.";;
           ret None)
       | OtherError _ => None
       end).

(** Lines 127-137. *)
Definition load_citekey_map : M (option (gmap string string)) :=
  try_except
    (entries <- match bibtex_file env with
                | inl e => raise e
                | inr entries => ret entries
                end;;
     let '(pdf_citekey_map, warnings) :=
       create_pdf_to_citekey_map entries in
     modify (set_stdout (fun out => out ++ warnings));;
     ret (Some pdf_citekey_map))
    (fun e =>
       match e with
       | FileNotFoundError _ => Some (
           print (NL +:+ "ERROR: BibTeX file not found at '"
                    +:+ BIBTEX_FILE_PATH +:+ "'.");;
           print "Please place your .bib file in the root directory and update the path in the script. Exiting.";;
           ret None)
       | OtherError _ => Some (
           print (NL +:+ "ERROR: Failed to parse BibTeX file. Details: "
                    +:+ str_of_exn e +:+ ". Exiting.");;
           ret None)
       end).

(** Lines 140-150. *)
Definition upload_manual : M (option File) :=
  try_except
    (if manual_exists env then
       print (NL +:+ "  - Uploading reference manual to Gemini...");;
       manual <- upload_file Manual SIUNITX_MANUAL
                   (OsPath.basename SIUNITX_MANUAL);;
       print ("  - Upload successful! File URI: " +:+ uri manual);;
       ret (Some manual)
     else
       print (NL +:+ "INFO: Optional reference manual '"
                +:+ SIUNITX_MANUAL +:+ "' not found. Proceeding without it.");;
       ret None)
    (fun e => Some (
       print (NL +:+ "WARNING: Could not upload reference manual. Details: "
                +:+ str_of_exn e +:+ ". Proceeding without it.");;
       ret None)).

(** Lines 153-157. *)
Definition find_pdf_files : M (option (list string)) :=
  try_except
    (names <- listdir;;
     ret (Some (List.filter names_document names)))
    (fun e =>
       match e with
       | FileNotFoundError _ => Some (
           print (NL +:+ "ERROR: The directory '" +:+ PAPERS_TO_READ_DIR
                    +:+ "' does not exist. Exiting.");;
           ret None)
       | OtherError _ => None
       end).

(** Lines 222-224. *)
Definition cleanup_manual (siunitx_manual_file : option File) : M unit :=
  match siunitx_manual_file with
  | Some manual =>
      print (NL +:+ "  - Deleting uploaded reference manual from service...");;
      delete_file Manual (name manual)
  | None => ret tt
  end.

Definition NO_PAPERS_NOTICE : string :=
  NL +:+ "No new papers found in the 'papers_to_read' directory. Exiting.".

Definition FINISHED : string := NL +:+ "--- Pipeline Finished ---".

(** [main]. *)
Definition main : M unit :=
  print "--- Integrated BibTeX and Gemini Pipeline Initialized ---";;
  setup_directories;;
  loaded <- load_master_prompt;;
  match loaded with
  | None => ret tt
  | Some master_prompt =>
  indexed <- load_citekey_map;;
  match indexed with
  | None => ret tt
  | Some pdf_citekey_map =>
  siunitx_manual_file <- upload_manual;;
  found <- find_pdf_files;;
  match found with
  | None => ret tt
  | Some [] => print NO_PAPERS_NOTICE
  | Some pdf_files =>
      print (NL +:+ "Found " +:+ pretty (length pdf_files)
               +:+ " file(s) to process: " +:+ join ", " pdf_files);;
      process_all master_prompt pdf_citekey_map siunitx_manual_file
                  pdf_files;;
      cleanup_manual siunitx_manual_file;;
      print FINISHED
  end end end.

Definition NO_KEY_DIAGNOSTIC : list string :=
  [ NL +:+ "ERROR: Gemini API key not found.";
    "Please do one of the following:";
    "  1. Paste your API key into the 'API_KEY_PLACEHOLDER' variable in this script.";
    "  2. Set the 'GEMINI_API_KEY' environment variable (recommended)." ].

(** Lines 40-52, run when the module is loaded; [Some status] stands
    for [sys.exit(status)]. *)
Definition configure_api : M (option nat) :=
  let api_key := GEMINI_API_KEY env in
  if match api_key with Some k => truthy k | None => false end then
    modify (log_call (Configure (default "" api_key)));;
    print "-> Configured Gemini API with key from environment variable.";;
    ret None
  else if negb (String.eqb API_KEY_PLACEHOLDER
                           "PASTE_YOUR_GEMINI_API_KEY_HERE") then
    modify (log_call (Configure API_KEY_PLACEHOLDER));;
    print "-> Configured Gemini API with key from the script file.";;
    ret None
  else
    modify (set_stdout (fun out => out ++ NO_KEY_DIAGNOSTIC));;
    ret (Some 1).

(** The script as a process: the module body, then [main()].  The
    exit status is the argument of [sys.exit], 1 after an uncaught
    exception, and 0 when [main] returns. *)
Definition script (w : World) : nat * World :=
  match configure_api w with
  | (inr (Some status), w1) => (status, w1)
  | (inl _, w1) => (1, w1)
  | (inr None, w1) =>
      match main w1 with
      | (inr _, w2) => (0, w2)
      | (inl _, w2) => (1, w2)
      end
  end.

End WithEnv.

(** A world in which nothing has happened yet. *)
Definition fresh_world (pending : gset string) : World :=
  {| stdout := []; papers_to_read := Some pending; read_papers := Some ∅;
     summaries := None; remote := ∅; next_file := 0; calls := [];
     slept := 0 |}.

(** An environment in which everything is in place and nothing fails. *)
Definition quiet_env (entries : list (gmap string string)) : Env :=
  {| GEMINI_API_KEY := Some "key";
     master_prompt_file := inr "Summarise.";
     bibtex_file := inr entries;
     manual_exists := true;
     listdir_fault := None;
     upload_fault := fun _ => None;
     generate := fun _ => inr {| text := inr "A summary." |};
     open_fault := fun _ => None;
     move_fault := fun _ => None;
     delete_fault := fun _ => None |}.

(** As [quiet_env] without a bibliography entry, but the reference
    manual does not exist locally. *)
Definition no_manual_env : Env :=
  {| GEMINI_API_KEY := Some "key";
     master_prompt_file := inr "Summarise.";
     bibtex_file := inr [];
     manual_exists := false;
     listdir_fault := None;
     upload_fault := fun _ => None;
     generate := fun _ => inr {| text := inr "A summary." |};
     open_fault := fun _ => None;
     move_fault := fun _ => None;
     delete_fault := fun _ => None |}.

(** As [quiet_env] without a bibliography entry, but the prompt file is
    missing. *)
Definition no_prompt_env : Env :=
  {| GEMINI_API_KEY := Some "key";
     master_prompt_file :=
       inl (FileNotFoundError
              "[Errno 2] No such file or directory: 'assets/master_prompt.txt'");
     bibtex_file := inr [];
     manual_exists := true;
     listdir_fault := None;
     upload_fault := fun _ => None;
     generate := fun _ => inr {| text := inr "A summary." |};
     open_fault := fun _ => None;
     move_fault := fun _ => None;
     delete_fault := fun _ => None |}.

(** As [quiet_env], but every generation request whose last part is the
    paper [bad] fails. *)
Definition flaky_env (bad : string) : Env :=
  {| GEMINI_API_KEY := Some "key";
     master_prompt_file := inr "Summarise.";
     bibtex_file := inr [];
     manual_exists := true;
     listdir_fault := None;
     upload_fault := fun _ => None;
     generate := fun parts =>
       match last parts with
       | Some (Attached doc) =>
           if String.eqb (display_name doc) bad
           then inl (OtherError "429 quota exceeded")
           else inr {| text := inr "A summary." |}
       | _ => inl (OtherError "no document")
       end;
     open_fault := fun _ => None;
     move_fault := fun _ => None;
     delete_fault := fun _ => None |}.

End Pipeline.

(* --------------------------------------------------------------------- *)
(* Vocabulary for the statements about runs                              *)
(* --------------------------------------------------------------------- *)
Module Run.
Import Pipeline.

(** [post m w Q]: running [m] in world [w] ends in a result and a world
    that satisfy [Q]. *)
Definition post {A} (m : M A) (w : World)
    (Q : exn + A -> World -> Prop) : Prop :=
  Q (m w).1 (m w).2.

(** What the summaries file holds; nothing before it exists. *)
Definition contents (w : World) : string := default "" (summaries w).

(** The calls one iteration of the loop may make: the upload of a
    paper, a generation request built from the prompt, the manual (if
    any) and an uploaded paper, and the delete of a paper. *)
Definition paper_call (master_prompt : string)
    (siunitx_manual_file : option File) (c : call) : Prop :=
  match c with
  | UploadFile Paper _ _ => True
  | GenerateContent model parts timeout =>
      model = MODEL /\ timeout = 600 /\
      exists uploaded_file,
        parts = prompt_parts master_prompt siunitx_manual_file uploaded_file
  | DeleteFile Paper _ => True
  | _ => False
  end.

(** From [w] to [w']: output and summaries grow at the end, the new
    calls are those of loop iterations, the directories stay in place,
    papers only leave the input directory, and only the [touched] ones,
    and the archive only gains. *)
Record advances (master_prompt : string)
    (siunitx_manual_file : option File) (touched : list string)
    (w w' : World) : Prop := {
  adv_stdout : exists out, stdout w' = stdout w ++ out;
  adv_contents : exists more, contents w' = contents w +:+ more;
  adv_calls : exists more,
      calls w' = calls w ++ more /\
      Forall (paper_call master_prompt siunitx_manual_file) more;
  adv_dirs : forall pending archive,
      papers_to_read w = Some pending -> read_papers w = Some archive ->
      exists pending' archive',
        papers_to_read w' = Some pending' /\
        read_papers w' = Some archive' /\
        pending' ⊆ pending /\ archive ⊆ archive' /\
        (forall g, g ∈ pending -> g ∉ touched -> g ∈ pending')
}.

(** The environment lets every step of paper [f] but possibly its
    final remote delete succeed, and the summary generated for a
    request whose last part is [f] is [summary]. *)
Definition cooperative (env : Env) (f summary : string) : Prop :=
  upload_fault env (OsPath.join PAPERS_TO_READ_DIR f) = None /\
  (forall parts doc rest,
      parts = rest ++ [Attached doc] -> display_name doc = f ->
      generate env parts = inr {| text := inr summary |}) /\
  open_fault env f = None /\
  move_fault env (OsPath.join PAPERS_TO_READ_DIR f) = None.

(** The world in which the [try] block of paper [f] starts: the banner
    and the citekey line have been printed. *)
Definition entering (pdf_citekey_map : gmap string string) (f : string)
    (w : World) : World :=
  ((bind (print (processing_banner f))
      (fun _ => announce_citekey f (resolve_citekey pdf_citekey_map f)))
     w).2.

(** The credential is there: the module body does not exit. *)
Definition has_credential (env : Env) : bool :=
  match GEMINI_API_KEY env with
  | Some k => PyStr.truthy k
  | None => false
  end.

(** The setup conditions the specification lists as fatal, and the
    failing call for which the script reports the input directory. *)
Inductive fatal : Type :=
| NoCredential
| NoPrompt
| NoBibliography
| BadBibliography (details : string)
| NoInputDirectory
| ListdirNotFound.

(** The run that starts in [w] meets the condition: the setup steps
    before it succeed, and this one fails.  [NoInputDirectory]: the
    input directory does not exist when the script starts.
    [ListdirNotFound]: [os.listdir] raises [FileNotFoundError]; after
    [setup_directories] this takes something else to remove the
    directory in between, which the world does not record. *)
Definition meets (env : Env) (w : World) (c : fatal) : Prop :=
  match c with
  | NoCredential => has_credential env = false
  | NoPrompt =>
      has_credential env = true /\
      exists msg, master_prompt_file env = inl (FileNotFoundError msg)
  | NoBibliography =>
      has_credential env = true /\
      (exists prompt, master_prompt_file env = inr prompt) /\
      exists msg, bibtex_file env = inl (FileNotFoundError msg)
  | BadBibliography details =>
      has_credential env = true /\
      (exists prompt, master_prompt_file env = inr prompt) /\
      bibtex_file env = inl (OtherError details)
  | NoInputDirectory =>
      has_credential env = true /\
      (exists prompt, master_prompt_file env = inr prompt) /\
      (exists entries, bibtex_file env = inr entries) /\
      listdir_fault env = None /\
      papers_to_read w = None
  | ListdirNotFound =>
      has_credential env = true /\
      (exists prompt, master_prompt_file env = inr prompt) /\
      (exists entries, bibtex_file env = inr entries) /\
      exists msg, listdir_fault env = Some (FileNotFoundError msg)
  end.

(** The first line the script prints about the condition; it prints
    none about an input directory that is missing at the start. *)
Definition diagnostic (c : fatal) : option string :=
  match c with
  | NoCredential => Some (NL +:+ "ERROR: Gemini API key not found.")
  | NoPrompt =>
      Some (NL +:+ "ERROR: Master prompt file not found at '"
               +:+ MASTER_PROMPT_FILE +:+ "'.")
  | NoBibliography =>
      Some (NL +:+ "ERROR: BibTeX file not found at '"
               +:+ BIBTEX_FILE_PATH +:+ "'.")
  | BadBibliography details =>
      Some (NL +:+ "ERROR: Failed to parse BibTeX file. Details: "
               +:+ details +:+ ". Exiting.")
  | NoInputDirectory => None
  | ListdirNotFound =>
      Some (NL +:+ "ERROR: The directory '" +:+ PAPERS_TO_READ_DIR
               +:+ "' does not exist. Exiting.")
  end.

(** A line that opens with the ERROR mark of the setup diagnostics. *)
Definition is_error_line (line : string) : bool :=
  PyStr.startswith line (NL +:+ "ERROR:").

(** What the output [out] of the run says about the condition: its
    diagnostic, or, where the script has none for it, no error line at
    all and the no-papers notice as the last line. *)
Definition reports (c : fatal) (out : list string) : Prop :=
  match diagnostic c with
  | Some line => line ∈ out
  | None =>
      Forall (fun line => is_error_line line = false) out /\
      last out = Some NO_PAPERS_NOTICE
  end.

(** The exit status the script ends with on the condition: [sys.exit(1)]
    without a credential, a plain [return] from [main] otherwise. *)
Definition exit_status_on (c : fatal) : nat :=
  match c with
  | NoCredential => 1
  | _ => 0
  end.

(** A disk on which the script has never run: neither directory
    exists. *)
Definition bare_world : World :=
  {| stdout := []; papers_to_read := None; read_papers := None;
     summaries := None; remote := ∅; next_file := 0; calls := [];
     slept := 0 |}.

(** A call made on behalf of a paper of the batch. *)
Definition touches_paper (c : call) : bool :=
  match c with
  | UploadFile Paper _ _ => true
  | GenerateContent _ _ _ => true
  | DeleteFile Paper _ => true
  | _ => false
  end.

(** A delete of the reference manual. *)
Definition deletes_manual (c : call) : bool :=
  match c with
  | DeleteFile Manual _ => true
  | _ => false
  end.

End Run.

(* --------------------------------------------------------------------- *)
(* Vocabulary for the statements about generation requests               *)
(* --------------------------------------------------------------------- *)
Module Requests.
Import Pipeline.

(** The payload of a generation request as the specification words it:
    the prompt text, the handle of the shared attachment if there is
    one, then the handle of the document. *)
Definition payload (prompt : string) (attachment : option File)
    (document : File) : list part :=
  match attachment with
  | Some manual => [Text prompt; Attached manual; Attached document]
  | None => [Text prompt; Attached document]
  end.

(** The handle of the manual in a run that starts in [w]: the one its
    upload returns, when the manual exists locally and the upload
    succeeds; none otherwise. *)
Definition manual_handle (env : Env) (w : World) : option File :=
  if manual_exists env then
    match upload_fault env SIUNITX_MANUAL with
    | None => Some (fresh_file (next_file w) "siunitx.pdf")
    | Some _ => None
    end
  else None.

(** The upload of the manual is called when the manual exists locally. *)
Definition manual_upload_calls (env : Env) : list call :=
  if manual_exists env
  then [UploadFile Manual SIUNITX_MANUAL "siunitx.pdf"]
  else [].

(** The delete of the manual is called after a loop over at least one
    paper, when there is a handle. *)
Definition manual_delete_calls (siunitx_manual_file : option File)
    (pdf_files : list string) : list call :=
  match siunitx_manual_file, pdf_files with
  | Some manual, _ :: _ => [DeleteFile Manual (name manual)]
  | _, _ => []
  end.

(** [trace] is what a loop over [pdf_files] calls, paper by paper, when
    the service has handed out [n] files before it.  A paper whose
    upload fails has that call only.  A paper whose upload succeeds gets
    the service's next handle, [fresh_file n pdf_file]; its upload is
    followed by one generation request whose payload holds this handle,
    and then by the delete of this handle or by nothing. *)
Fixpoint batch_trace (env : Env) (prompt : string)
    (attachment : option File) (n : nat) (pdf_files : list string)
    (trace : list call) : Prop :=
  match pdf_files with
  | [] => trace = []
  | pdf_file :: rest =>
      let pdf_path := OsPath.join PAPERS_TO_READ_DIR pdf_file in
      match upload_fault env pdf_path with
      | Some _ =>
          exists later,
            trace = UploadFile Paper pdf_path pdf_file :: later /\
            batch_trace env prompt attachment n rest later
      | None =>
          let uploaded_file := fresh_file n pdf_file in
          exists tail later,
            trace =
              UploadFile Paper pdf_path pdf_file
                :: GenerateContent MODEL
                     (payload prompt attachment uploaded_file) 600
                :: tail ++ later /\
            (tail = [] \/ tail = [DeleteFile Paper (name uploaded_file)]) /\
            batch_trace env prompt attachment (S n) rest later
      end
  end.

End Requests.

(* --------------------------------------------------------------------- *)
(* Vocabulary for the statements about partial failures                  *)
(* --------------------------------------------------------------------- *)
Module Outcomes.
Import Pipeline Run.

(** The record one paper adds to the summaries file. *)
Definition summary_record (citekey summary : string) : string :=
  section_header citekey +:+ summary +:+ SEPARATOR.

(** The two lines the handler of the loop body prints. *)
Definition failure_lines (pdf_file : string) (e : exn) : list string :=
  [error_report pdf_file e;
   "  - Skipping this file and moving to the next one."].

(** An environment with everything in place in which the given calls
    fail. *)
Definition staged_env (manual : bool)
    (upload_f : string -> option exn)
    (gen : list part -> exn + Response)
    (open_f move_f delete_f : string -> option exn) : Env :=
  {| GEMINI_API_KEY := Some "key";
     master_prompt_file := inr "Summarise.";
     bibtex_file := inr [];
     manual_exists := manual;
     listdir_fault := None;
     upload_fault := upload_f;
     generate := gen;
     open_fault := open_f;
     move_fault := move_f;
     delete_fault := delete_f |}.

Definition no_fault : string -> option exn := fun _ => None.

Definition always_fails (msg : string) : string -> option exn :=
  fun _ => Some (OtherError msg).

(** The service answers every request with the same text. *)
Definition answers (summary : string) : list part -> exn + Response :=
  fun _ => inr {| text := inr summary |}.

(** The service answers, but the text of the answer cannot be read. *)
Definition blocked (msg : string) : list part -> exn + Response :=
  fun _ => inr {| text := inl (OtherError msg) |}.

(** The warning [main] prints when the upload of the manual fails. *)
Definition manual_upload_warning (e : exn) : string :=
  NL +:+ "WARNING: Could not upload reference manual. Details: "
     +:+ str_of_exn e +:+ ". Proceeding without it.".

Definition DELETING_MANUAL : string :=
  NL +:+ "  - Deleting uploaded reference manual from service...".

(** As [staged_env] with the manual in place, but [os.listdir] fails. *)
Definition unlistable_env (fault : exn) : Env :=
  {| GEMINI_API_KEY := Some "key";
     master_prompt_file := inr "Summarise.";
     bibtex_file := inr [];
     manual_exists := true;
     listdir_fault := Some fault;
     upload_fault := no_fault;
     generate := answers "A summary.";
     open_fault := no_fault;
     move_fault := no_fault;
     delete_fault := no_fault |}.

(** The delete of one remote file fails, all others work. *)
Definition delete_fails_for (file_name msg : string) : string -> option exn :=
  fun n => if String.eqb n file_name then Some (OtherError msg) else None.

(** The upload of one path fails, all others work. *)
Definition upload_fails_for (path msg : string) : string -> option exn :=
  fun p => if String.eqb p path then Some (OtherError msg) else None.

End Outcomes.

(* ===================================================================== *)
(* Properties                                                            *)
(* ===================================================================== *)

(* --------------------------------------------------------------------- *)
(* The string and path models on the examples of the script             *)
(* --------------------------------------------------------------------- *)
Example split_zotero :
  PyStr.split ":" ":sub/dir/name.pdf:PDF" = [""; "sub/dir/name.pdf"; "PDF"].
Proof. reflexivity. Qed.

Example basename_nested : OsPath.basename "sub/dir/name.pdf" = "name.pdf".
Proof. reflexivity. Qed.

Example splitext_plain : OsPath.splitext "hayes2002.pdf" = ("hayes2002", ".pdf").
Proof. reflexivity. Qed.

Example splitext_hidden : OsPath.splitext ".pdf" = (".pdf", "").
Proof. reflexivity. Qed.

Example splitext_two_dots : OsPath.splitext "a.b.HTML" = ("a.b", ".HTML").
Proof. reflexivity. Qed.

(* --------------------------------------------------------------------- *)
(* Strings                                                               *)
(* --------------------------------------------------------------------- *)
Module PyStrFacts.
Import PyStr.

Lemma append_nil (b : string) : "" +:+ b = b.
Proof. reflexivity. Qed.

Lemma append_cons (c : ascii) (a b : string) :
  String c a +:+ b = String c (a +:+ b).
Proof. reflexivity. Qed.

Ltac str_simpl := rewrite ?append_nil, ?append_cons; simpl.

Lemma lower_app (a b : string) : lower (a +:+ b) = lower a +:+ lower b.
Proof.
  induction a as [|c a IH]; str_simpl; [reflexivity |].
  now rewrite IH.
Qed.

Lemma append_assoc (a b c : string) : (a +:+ b) +:+ c = a +:+ b +:+ c.
Proof.
  induction a as [|x a IH]; str_simpl; [reflexivity |].
  now rewrite IH.
Qed.

Lemma append_empty_r (a : string) : a +:+ "" = a.
Proof.
  induction a as [|x a IH]; str_simpl; [reflexivity | now rewrite IH].
Qed.

Lemma startswith_app (p r : string) : startswith (p +:+ r) p = true.
Proof.
  induction p as [|c p IH]; str_simpl; [reflexivity |].
  now rewrite Ascii.eqb_refl, IH.
Qed.

Lemma contains_here (sub s : string) :
  startswith s sub = true -> contains sub s = true.
Proof. intros H. destruct s; simpl; now rewrite H. Qed.

Lemma contains_app (sub a b : string) : contains sub (a +:+ sub +:+ b) = true.
Proof.
  induction a as [|c a IH]; str_simpl.
  - apply contains_here, startswith_app.
  - rewrite IH. apply orb_true_r.
Qed.

Lemma endswith_refl (s : string) : endswith s s = true.
Proof. destruct s; cbn [endswith]; now rewrite String.eqb_refl. Qed.

Lemma endswith_app (a suf : string) : endswith (a +:+ suf) suf = true.
Proof.
  induction a as [|c a IH]; str_simpl.
  - apply endswith_refl.
  - rewrite IH. apply orb_true_r.
Qed.

Lemma endswith_inv (s suf : string) :
  endswith s suf = true -> exists pre, s = pre +:+ suf.
Proof.
  induction s as [|c s IH]; cbn [endswith]; intros H.
  - apply orb_true_iff in H as [H | H]; [|discriminate].
    apply String.eqb_eq in H. exists "". now subst suf.
  - apply orb_true_iff in H as [H | H].
    + apply String.eqb_eq in H. exists "". now subst suf.
    + destruct (IH H) as [pre ->]. now exists (String c pre).
Qed.

Lemma mem_app (c : ascii) (a b : string) :
  mem c (a +:+ b) = mem c a || mem c b.
Proof.
  induction a as [|x a IH]; str_simpl; [reflexivity |].
  now rewrite IH, orb_assoc.
Qed.

(** Without the separator there is nothing to split. *)
Lemma split_absent (sep : ascii) (s : string) :
  mem sep s = false -> split sep s = [s].
Proof.
  induction s as [|c s IH]; simpl; [reflexivity |]; intros H.
  apply orb_false_iff in H as [Hc Hs]. rewrite Hc, (IH Hs). reflexivity.
Qed.

(** Splitting a string that starts with a separator-free segment. *)
Lemma split_app_sep (sep : ascii) (a rest : string) :
  mem sep a = false ->
  split sep (a +:+ String sep rest) = a :: split sep rest.
Proof.
  induction a as [|c a IH]; str_simpl; intros H.
  - now rewrite Ascii.eqb_refl.
  - apply orb_false_iff in H as [Hc Ha]. rewrite Hc, (IH Ha). reflexivity.
Qed.

Lemma join_cons (sep x y : string) (l : list string) :
  join sep (x :: y :: l) = x +:+ sep +:+ join sep (y :: l).
Proof. reflexivity. Qed.

(** [sep.join(l).split(sep) == l] for separator-free segments. *)
Lemma split_join (sep : ascii) (l : list string) :
  l <> [] ->
  Forall (fun seg => mem sep seg = false) l ->
  split sep (join (String sep "") l) = l.
Proof.
  induction l as [|x l IH]; [congruence |]; intros _ Hall.
  inversion Hall as [|? ? Hx Hl]; subst.
  destruct l as [|y l].
  - now apply split_absent.
  - rewrite join_cons, append_cons, append_nil.
    rewrite (split_app_sep sep x _ Hx).
    f_equal. apply IH; [discriminate | assumption].
Qed.

Lemma mem_join (c sep : ascii) (l : list string) :
  Ascii.eqb sep c = false ->
  Forall (fun seg => mem c seg = false) l ->
  mem c (join (String sep "") l) = false.
Proof.
  intros Hsep. induction l as [|x l IH]; intros Hall; [reflexivity |].
  inversion Hall as [|? ? Hx Hl]; subst.
  destruct l as [|y l]; [exact Hx |].
  rewrite join_cons, append_cons, append_nil, mem_app, Hx.
  cbn [mem orb]. rewrite Hsep. apply IH, Hl.
Qed.

(** A joined list is its middle element with something around it. *)
Lemma join_middle (sep : string) (before after : list string) (x : string) :
  exists l r, join sep (before ++ x :: after) = l +:+ x +:+ r.
Proof.
  induction before as [|b before IH].
  - destruct after as [|a after].
    + exists "", "". simpl. now rewrite append_empty_r.
    + exists "", (sep +:+ join sep (a :: after)). reflexivity.
  - destruct IH as (l & r & E).
    destruct (before ++ x :: after) as [|y rest] eqn:Hl.
    + destruct before; discriminate.
    + rewrite <- List.app_comm_cons, Hl, join_cons, E.
      exists (b +:+ sep +:+ l), r.
      now rewrite !append_assoc.
Qed.

End PyStrFacts.

(* --------------------------------------------------------------------- *)
(* The citekey resolver                                                  *)
(* --------------------------------------------------------------------- *)
Module ResolverFacts.
Import PyStr PyStrFacts Resolver.

Lemma names_document_nonempty (s : string) :
  names_document s = true -> truthy s = true.
Proof.
  unfold names_document, endswith_any. cbn [existsb]. intros H.
  destruct s; [discriminate | reflexivity].
Qed.

(** A part that holds a document name mentions a document. *)
Lemma mentions_around (l r path : string) :
  names_document path = true -> mentions_document (l +:+ path +:+ r) = true.
Proof.
  unfold names_document, endswith_any, mentions_document. cbn [existsb].
  rewrite orb_false_r, !lower_app. intros H.
  apply orb_true_iff in H as [H | H];
    apply endswith_inv in H as [pre ->];
    rewrite append_assoc, <- (append_assoc (lower l) pre), contains_app.
  - reflexivity.
  - apply orb_true_r.
Qed.

(** The reversed scan stops at the last segment that names a document. *)
Lemma last_document_segment_app (before after : list string) (path : string) :
  names_document path = true ->
  Forall (fun seg => names_document seg = false) after ->
  last_document_segment (before ++ path :: after) = Some path.
Proof.
  intros Hpath Hafter. unfold last_document_segment.
  rewrite rev_app_distr. cbn [rev]. rewrite <- List.app_assoc.
  apply Forall_rev in Hafter. revert Hafter.
  generalize (rev after) as tail.
  induction tail as [|seg tail IH]; intros Hall; cbn [find app].
  - now rewrite Hpath.
  - inversion Hall as [|? ? Hseg Htail]; subst. rewrite Hseg. now apply IH.
Qed.

Lemma scan_parts_plain (parts : list string) :
  Forall (fun part => mentions_document part = false) parts ->
  scan_parts parts = None.
Proof.
  induction 1 as [|part parts Hpart _ IH]; cbn [scan_parts];
    [reflexivity | now rewrite Hpart].
Qed.

(** Parts without a segment that names a document are passed over. *)
Lemma scan_parts_skip (earlier rest : list string) :
  Forall (fun part => last_document_segment (split ":" part) = None)
         earlier ->
  scan_parts (earlier ++ rest) = scan_parts rest.
Proof.
  induction 1 as [|part earlier Hpart _ IH]; [reflexivity |].
  cbn [app scan_parts]. rewrite Hpart, IH. now destruct (mentions_document part).
Qed.

Lemma truthy_around (l r x : string) :
  truthy x = true -> truthy (l +:+ x +:+ r) = true.
Proof.
  intros Hx. destruct l; [| reflexivity].
  destruct x; [discriminate Hx | reflexivity].
Qed.

(** What one iteration of the index loop does to the mapping. *)
Lemma record_entry_bound (mapping entry : gmap string string)
    (ck ff pdf_path : string) :
  entry !! "ID" = Some ck -> entry !! "file" = Some ff ->
  truthy ck = true ->
  parse_file_path_from_entry (Some ff) = Some pdf_path ->
  names_document pdf_path = true ->
  record_entry mapping entry = <[OsPath.basename pdf_path := ck]> mapping.
Proof.
  intros Hid Hfile Hck Hparse Hname. unfold record_entry.
  rewrite Hid, Hfile, Hck.
  assert (truthy ff = true) as ->.
  { destruct ff; [discriminate Hparse | reflexivity]. }
  cbn [negb orb]. rewrite Hparse.
  now rewrite (names_document_nonempty _ Hname).
Qed.

Lemma scan_parts_names (parts : list string) (p : string) :
  scan_parts parts = Some p -> names_document p = true.
Proof.
  induction parts as [|part parts IH]; cbn [scan_parts]; [discriminate |].
  destruct (mentions_document part); [|exact IH].
  unfold last_document_segment.
  destruct (find names_document (rev (split ":" part))) as [seg|] eqn:E;
    [|exact IH].
  intros [= <-]. now apply find_some in E as [_ ?].
Qed.

(** Whatever the resolver returns names a document. *)
Lemma parse_names (f : option string) (p : string) :
  parse_file_path_from_entry f = Some p -> names_document p = true.
Proof.
  destruct f as [s|]; [|discriminate]. cbn.
  destruct (truthy s); [apply scan_parts_names | discriminate].
Qed.

Lemma record_entry_skips (mapping entry : gmap string string) :
  entry !! "ID" = None \/ entry !! "file" = None ->
  record_entry mapping entry = mapping.
Proof.
  unfold record_entry. intros [-> | ->]; [reflexivity |].
  now destruct (entry !! "ID").
Qed.

(** An iteration leaves every other basename alone. *)
Lemma record_entry_other (mapping entry : gmap string string) (b : string) :
  (forall ff p, entry !! "file" = Some ff ->
                parse_file_path_from_entry (Some ff) = Some p ->
                OsPath.basename p <> b) ->
  record_entry mapping entry !! b = mapping !! b.
Proof.
  intros Hother. unfold record_entry.
  destruct (entry !! "ID") as [ck|]; [|reflexivity].
  destruct (entry !! "file") as [ff|] eqn:Hfile; [|reflexivity].
  destruct (negb (truthy ck) || negb (truthy ff)); [reflexivity |].
  destruct (parse_file_path_from_entry (Some ff)) as [p|] eqn:Hp;
    [|reflexivity].
  destruct (truthy p); [|reflexivity].
  apply lookup_insert_ne. now apply (Hother ff p).
Qed.

Lemma fold_record_other (entries : list (gmap string string))
    (mapping : gmap string string) (b : string) :
  Forall (fun entry =>
    forall ff p, entry !! "file" = Some ff ->
                 parse_file_path_from_entry (Some ff) = Some p ->
                 OsPath.basename p <> b) entries ->
  fold_left record_entry entries mapping !! b = mapping !! b.
Proof.
  intros Hall. revert mapping.
  induction Hall as [|entry entries Hentry _ IH]; intros mapping;
    [reflexivity |].
  cbn [fold_left]. rewrite IH. now apply record_entry_other.
Qed.

End ResolverFacts.

(* --------------------------------------------------------------------- *)
(* os.path                                                               *)
(* --------------------------------------------------------------------- *)
Module OsPathFacts.
Import PyStr PyStrFacts OsPath.

Lemma rfind_absent (c : ascii) (s : string) :
  mem c s = false -> rfind c s = (-1)%Z.
Proof.
  induction s as [|a s IH]; cbn [rfind mem]; [reflexivity |]; intros H.
  apply orb_false_iff in H as [Ha Hs]. now rewrite (IH Hs), Ha.
Qed.

(** The last occurrence is the one after which the character is absent. *)
Lemma rfind_last (c : ascii) (a b : string) :
  mem c b = false ->
  rfind c (a +:+ String c b) = Z.of_nat (String.length a).
Proof.
  intros Hb. induction a as [|x a IH]; rewrite ?append_nil, ?append_cons.
  - cbn [rfind]. rewrite (rfind_absent _ _ Hb). cbn.
    now rewrite Ascii.eqb_refl.
  - cbn [rfind]. rewrite IH.
    destruct (0 <=? Z.of_nat (String.length a))%Z eqn:E;
      [cbn [String.length]; lia | apply Z.leb_gt in E; lia].
Qed.

Lemma slice_from_app (a b : string) :
  slice_from (String.length a) (a +:+ b) = b.
Proof. induction a as [|x a IH]; [reflexivity | exact IH]. Qed.

(** The basename of [dir/base] is [base]. *)
Lemma basename_join (dir base : string) :
  mem "/" base = false -> basename (dir +:+ "/" +:+ base) = base.
Proof.
  intros Hbase. unfold basename.
  change ("/" +:+ base) with (String "/" base).
  rewrite (rfind_last _ _ _ Hbase).
  replace (Z.to_nat (Z.of_nat (String.length dir) + 1))
    with (String.length (dir +:+ "/")).
  - rewrite <- (slice_from_app (dir +:+ "/") base) at 2.
    now rewrite append_assoc.
  - induction dir as [|x dir IH]; [reflexivity |].
    rewrite append_cons. cbn [String.length]. rewrite IH. lia.
Qed.

Lemma slice_to_app (a b : string) :
  slice_to (String.length a) (a +:+ b) = a.
Proof.
  induction a as [|x a IH]; [reflexivity |].
  rewrite append_cons. cbn [String.length slice_to]. now rewrite IH.
Qed.

(** The stem of [stem.ext]: the name up to its last dot, provided the
    stem is not made of dots only. *)
Lemma splitext_stem (stem ext : string) :
  mem "/" (stem +:+ "." +:+ ext) = false ->
  mem "." ext = false ->
  forallb (fun c => Ascii.eqb c ".") (list_ascii_of_string stem) = false ->
  splitext (stem +:+ "." +:+ ext) = (stem, "." +:+ ext).
Proof.
  intros Hslash Hdot Hstem. unfold splitext.
  rewrite (rfind_absent _ _ Hslash).
  change ("." +:+ ext) with (String "." ext).
  rewrite (rfind_last _ _ _ Hdot).
  destruct (-1 <? Z.of_nat (String.length stem))%Z eqn:E;
    [| apply Z.ltb_ge in E; lia].
  unfold all_dots. rewrite Nat2Z.id.
  change (Z.to_nat (-1 + 1)) with 0%nat. cbn [slice_from].
  rewrite Nat.sub_0_r.
  rewrite !(slice_to_app stem (String "." ext)), Hstem.
  now rewrite (slice_from_app stem (String "." ext)).
Qed.

End OsPathFacts.

Import PyStr Resolver Pipeline.

(** C4: take a file field whose semicolon-separated parts are first some
    parts without a document segment, then a part made of
    colon-separated segments one of which is a path ending in .pdf or
    .html (any letter case) with only metadata tags after it.  The
    resolver returns exactly that path; for a path [dir/base] the
    basename of the result is [base].  The shape ":sub/dir/name.pdf:PDF"
    is the case of a single part with one empty segment before the path
    and one tag after it. *)
Theorem parse_returns_tagged_path
    (earlier later before after : list string) (path : string) :
  Forall (fun part =>
            mem ";" part = false /\
            last_document_segment (split ":" part) = None) earlier ->
  Forall (fun part => mem ";" part = false) later ->
  Forall (fun seg => mem ":" seg = false /\ mem ";" seg = false)
         (before ++ path :: after) ->
  names_document path = true ->
  Forall (fun seg => names_document seg = false) after ->
  let part := join ":" (before ++ path :: after) in
  let field := join ";" (earlier ++ part :: later) in
  parse_file_path_from_entry (Some field) = Some path /\
  forall dir base,
    path = dir +:+ "/" +:+ base -> mem "/" base = false ->
    OsPath.basename <$> parse_file_path_from_entry (Some field) = Some base.
Proof.
  intros Hearlier Hlater Hsegs Hpath Hafter part field.
  assert (parse_file_path_from_entry (Some field) = Some path) as Hparse.
  { unfold parse_file_path_from_entry, field.
    destruct (PyStrFacts.join_middle ":" before after path) as (l & r & E).
    destruct (PyStrFacts.join_middle ";" earlier later part) as (l' & r' & E').
    assert (mem ";" part = false) as Hpart.
    { apply PyStrFacts.mem_join; [reflexivity |].
      eapply List.Forall_impl; [|exact Hsegs]. now intros seg [_ ?]. }
    assert (truthy (join ";" (earlier ++ part :: later)) = true) as ->.
    { rewrite E'. apply ResolverFacts.truthy_around. unfold part. rewrite E.
      apply ResolverFacts.truthy_around.
      now apply ResolverFacts.names_document_nonempty. }
    rewrite PyStrFacts.split_join.
    2:{ now destruct earlier. }
    2:{ apply List.Forall_app. split.
        - eapply List.Forall_impl; [|exact Hearlier]. now intros ? [? _].
        - now constructor. }
    rewrite ResolverFacts.scan_parts_skip.
    2:{ eapply List.Forall_impl; [|exact Hearlier]. now intros ? [_ ?]. }
    cbn [scan_parts]. unfold part at 1. rewrite E.
    rewrite (ResolverFacts.mentions_around l r path Hpath).
    unfold part. rewrite PyStrFacts.split_join.
    - now rewrite ResolverFacts.last_document_segment_app.
    - now destruct before.
    - eapply List.Forall_impl; [|exact Hsegs]. now intros seg [? _]. }
  split; [exact Hparse |].
  intros dir base -> Hbase. rewrite Hparse. cbn.
  now rewrite OsPathFacts.basename_join.
Qed.

Lemma parse_returns_tagged_path_witness :
  (parse_file_path_from_entry (Some ":sub/dir/name.pdf:PDF")
     = Some "sub/dir/name.pdf" /\
   OsPath.basename
     <$> parse_file_path_from_entry (Some ":sub/dir/name.pdf:PDF")
     = Some "name.pdf") /\
  parse_file_path_from_entry
    (Some "Snapshot:notes.txt:text/plain;Full Text:files/12/Hayes.PDF:application/pdf;:x.html:HTML")
    = Some "files/12/Hayes.PDF".
Proof.
  split.
  - destruct (parse_returns_tagged_path [] [] [""] ["PDF"] "sub/dir/name.pdf")
      as [Hpath Hbase].
    + constructor.
    + constructor.
    + repeat constructor.
    + reflexivity.
    + repeat constructor.
    + split; [exact Hpath |].
      apply (Hbase "sub/dir" "name.pdf"); reflexivity.
  - apply (parse_returns_tagged_path
             ["Snapshot:notes.txt:text/plain"] [":x.html:HTML"]
             ["Full Text"] ["application/pdf"] "files/12/Hayes.PDF").
    + repeat constructor.
    + repeat constructor.
    + repeat constructor.
    + reflexivity.
    + repeat constructor.
Defined.

(** C5: an absent or empty file field, and a file field none of whose
    semicolon-separated parts contains ".pdf" or ".html" in any letter
    case, resolves to no match; the resolver returns [None] and does not
    raise. *)
Theorem parse_without_document (file_field_string : option string) :
  (forall s, file_field_string = Some s ->
     Forall (fun part => mentions_document part = false) (split ";" s)) ->
  parse_file_path_from_entry file_field_string = None.
Proof.
  intros Hplain. destruct file_field_string as [s|]; [|reflexivity].
  unfold parse_file_path_from_entry.
  destruct (truthy s); [|reflexivity].
  now apply ResolverFacts.scan_parts_plain, Hplain.
Qed.

Lemma parse_without_document_witness :
  parse_file_path_from_entry (Some "notes.txt:TXT;:scan.djvu:DJVU") = None /\
  parse_file_path_from_entry (Some "") = None /\
  parse_file_path_from_entry None = None.
Proof.
  split; [| split].
  - apply (parse_without_document (Some "notes.txt:TXT;:scan.djvu:DJVU")).
    intros s [= <-]. repeat constructor.
  - apply (parse_without_document (Some "")).
    intros s [= <-]. repeat constructor.
  - apply (parse_without_document None). intros s [=].
Defined.

(** C6: when two entries with different citation keys resolve to the same
    basename, and no later entry resolves to it, the index maps that
    basename to the key of the later of the two (and so not to the key of
    the earlier one); an entry without a citation key or without a file
    field changes nothing; an empty index makes the builder print its
    warning, and [main] goes on with the empty index. *)
Theorem index_last_entry_wins
    (before between after : list (gmap string string))
    (e1 e2 skipped : gmap string string) (k1 k2 f1 f2 p1 p2 : string)
    (env : Env) (w : World) (entries : list (gmap string string)) :
  e1 !! "ID" = Some k1 -> e1 !! "file" = Some f1 ->
  parse_file_path_from_entry (Some f1) = Some p1 ->
  e2 !! "ID" = Some k2 -> e2 !! "file" = Some f2 ->
  parse_file_path_from_entry (Some f2) = Some p2 ->
  truthy k1 = true -> truthy k2 = true -> k1 <> k2 ->
  OsPath.basename p1 = OsPath.basename p2 ->
  Forall (fun entry =>
    forall ff p, entry !! "file" = Some ff ->
                 parse_file_path_from_entry (Some ff) = Some p ->
                 OsPath.basename p <> OsPath.basename p2) after ->
  bibtex_file env = inr entries ->
  let index :=
    (create_pdf_to_citekey_map (before ++ e1 :: between ++ e2 :: after)).1 in
  (index !! OsPath.basename p1 = Some k2 /\
   index !! OsPath.basename p1 <> Some k1 /\
   (create_pdf_to_citekey_map [e1; e2]).1 = {[OsPath.basename p1 := k2]}) /\
  (create_pdf_to_citekey_map (before ++ delete "ID" skipped :: after)
     = create_pdf_to_citekey_map (before ++ after) /\
   create_pdf_to_citekey_map (before ++ delete "file" skipped :: after)
     = create_pdf_to_citekey_map (before ++ after)) /\
  (((create_pdf_to_citekey_map entries).1 = ∅ <->
    (create_pdf_to_citekey_map entries).2 = [NO_FILE_ENTRIES_WARNING]) /\
   load_citekey_map env w
     = (inr (Some (create_pdf_to_citekey_map entries).1),
        set_stdout (fun out => out ++ (create_pdf_to_citekey_map entries).2) w)).
Proof.
  intros Hid1 Hfile1 Hp1 Hid2 Hfile2 Hp2 Hk1 Hk2 Hne Hbase Hafter Hbib index.
  pose proof (ResolverFacts.parse_names _ _ Hp1) as Hn1.
  pose proof (ResolverFacts.parse_names _ _ Hp2) as Hn2.
  assert (index !! OsPath.basename p1 = Some k2) as Hindex.
  { unfold index, create_pdf_to_citekey_map. cbn [fst].
    rewrite Hbase.
    replace (before ++ e1 :: between ++ e2 :: after)
      with ((before ++ e1 :: between) ++ e2 :: after)
      by now rewrite <- List.app_assoc.
    rewrite fold_left_app. cbn [fold_left].
    rewrite (ResolverFacts.fold_record_other _ _ _ Hafter).
    rewrite (ResolverFacts.record_entry_bound _ _ _ _ _
               Hid2 Hfile2 Hk2 Hp2 Hn2).
    apply lookup_insert_eq. }
  repeat split.
  - exact Hindex.
  - rewrite Hindex. congruence.
  - unfold create_pdf_to_citekey_map. cbn [fst fold_left].
    rewrite (ResolverFacts.record_entry_bound _ _ _ _ _
               Hid1 Hfile1 Hk1 Hp1 Hn1).
    rewrite (ResolverFacts.record_entry_bound _ _ _ _ _
               Hid2 Hfile2 Hk2 Hp2 Hn2).
    rewrite <- Hbase. apply insert_insert_eq.
  - unfold create_pdf_to_citekey_map.
    rewrite !fold_left_app. cbn [fold_left].
    rewrite ResolverFacts.record_entry_skips; [reflexivity |].
    left. apply lookup_delete_eq.
  - unfold create_pdf_to_citekey_map.
    rewrite !fold_left_app. cbn [fold_left].
    rewrite ResolverFacts.record_entry_skips; [reflexivity |].
    right. apply lookup_delete_eq.
  - unfold create_pdf_to_citekey_map. cbn [fst snd]. intros ->.
    now rewrite bool_decide_eq_true_2.
  - unfold create_pdf_to_citekey_map. cbn [fst snd].
    case_bool_decide; [done | discriminate].
  - unfold load_citekey_map, try_except, bind, ret, modify. rewrite Hbib.
    unfold create_pdf_to_citekey_map. reflexivity.
Qed.

Lemma index_last_entry_wins_witness :
  let hayes : gmap string string :=
    <["ID" := "hayes2002distributed"]>
      (<["file" := ":sub/dir/hayes2002.pdf:PDF"]> ∅) in
  let reprint : gmap string string :=
    <["ID" := "hayes2003reprint"]>
      (<["file" := ":other/hayes2002.pdf:PDF"]> ∅) in
  (create_pdf_to_citekey_map [hayes; reprint]).1
    = {["hayes2002.pdf" := "hayes2003reprint"]} /\
  create_pdf_to_citekey_map [delete "ID" hayes]
    = (∅, [NO_FILE_ENTRIES_WARNING]).
Proof.
  intros hayes reprint.
  destruct (index_last_entry_wins [] [] [] hayes reprint hayes
              "hayes2002distributed" "hayes2003reprint"
              ":sub/dir/hayes2002.pdf:PDF" ":other/hayes2002.pdf:PDF"
              "sub/dir/hayes2002.pdf" "other/hayes2002.pdf"
              (quiet_env []) (fresh_world ∅) [])
    as ((_ & _ & Hboth) & (Hskip & _) & _).
  all: try reflexivity.
  all: try discriminate.
  all: try (constructor; fail).
  split; [exact Hboth | exact Hskip].
Defined.


(* --------------------------------------------------------------------- *)
(* Rules for running a computation step by step                          *)
(* --------------------------------------------------------------------- *)
Module RunRules.
Import Run.

Lemma post_ret {A} (a : A) w Q : Q (inr a) w -> post (ret a) w Q.
Proof. exact id. Qed.

Lemma post_raise {A} (e : exn) w (Q : exn + A -> World -> Prop) :
  Q (inl e) w -> post (raise e) w Q.
Proof. exact id. Qed.

Lemma post_modify (f : World -> World) w Q :
  Q (inr tt) (f w) -> post (modify f) w Q.
Proof. exact id. Qed.

Lemma post_get w Q : Q (inr w) w -> post get w Q.
Proof. exact id. Qed.

Lemma post_print (line : string) w Q :
  Q (inr tt) (set_stdout (fun out => out ++ [line]) w) ->
  post (print line) w Q.
Proof. exact id. Qed.

Lemma post_bind {A B} (m : M A) (k : A -> M B) w Q :
  post m w (fun r w' =>
    match r with
    | inr a => post (k a) w' Q
    | inl e => Q (inl e) w'
    end) ->
  post (bind m k) w Q.
Proof. unfold post, bind. now destruct (m w) as [[e|a] w']. Qed.

Lemma post_try {A} (body : M A) handler w Q :
  post body w (fun r w' =>
    match r with
    | inr a => Q (inr a) w'
    | inl e =>
        match handler e with
        | Some h => post h w' Q
        | None => Q (inl e) w'
        end
    end) ->
  post (try_except body handler) w Q.
Proof.
  unfold post, try_except. destruct (body w) as [[e|a] w']; cbn; [|easy].
  now destruct (handler e).
Qed.

Lemma post_check_fault (fault : option exn) w Q :
  (forall e, fault = Some e -> Q (inl e) w) ->
  (fault = None -> Q (inr tt) w) ->
  post (check_fault fault) w Q.
Proof. destruct fault; unfold post; cbn; auto. Qed.

Lemma post_wand {A} (m : M A) w (Q Q' : exn + A -> World -> Prop) :
  post m w Q -> (forall r w', Q r w' -> Q' r w') -> post m w Q'.
Proof. unfold post. auto. Qed.

(** One step of a run: the rule for the head of the computation. *)
Ltac step :=
  lazymatch goal with
  | |- post (bind _ _) _ _ => apply post_bind
  | |- post (ret _) _ _ => apply post_ret
  | |- post (raise _) _ _ => apply post_raise
  | |- post (print _) _ _ => apply post_print
  | |- post (modify _) _ _ => apply post_modify
  | |- post get _ _ => apply post_get
  | |- post (try_except _ _) _ _ => apply post_try
  | |- post (check_fault _) _ _ =>
      apply post_check_fault; [intros ? ? | intros ?]
  | |- post (upload_file _ _ _ _) _ _ => unfold upload_file
  | |- post (generate_content _ _ _ _) _ _ => unfold generate_content
  | |- post (delete_file _ _ _) _ _ => unfold delete_file
  | |- post (append_summary _ _ _ _) _ _ => unfold append_summary
  | |- post (append_to_summaries _) _ _ => unfold append_to_summaries
  | |- post (move _ _ _) _ _ => unfold move
  | |- post (listdir _) _ _ => unfold listdir
  | |- post (sleep _) _ _ => unfold sleep
  | |- post (announce_citekey _ _) _ _ => unfold announce_citekey
  | |- post (process_steps _ _ _ _ _) _ _ => unfold process_steps
  | |- post (process_paper _ _ _ _ _) _ _ => unfold process_paper
  | |- post (setup_directories) _ _ => unfold setup_directories
  | |- post (cleanup_manual _ _) _ _ => unfold cleanup_manual
  | |- post (match ?x with _ => _ end) _ _ => destruct x eqn:?
  | |- match match ?e with _ => _ end with _ => _ end => destruct e
  | |- post (let _ := _ in _) _ _ => cbv zeta
  end;
  cbv beta iota;
  cbn [stdout calls summaries papers_to_read read_papers remote next_file
       slept set_stdout set_dirs set_summaries set_remote log_call
       add_sleep].

Ltac run := repeat step.

End RunRules.

(* --------------------------------------------------------------------- *)
(* The per-paper loop                                                    *)
(* --------------------------------------------------------------------- *)
Module LoopFacts.
Import PyStrFacts Run RunRules.

Ltac world_simpl :=
  cbn [stdout calls summaries papers_to_read read_papers remote next_file
       slept set_stdout set_dirs set_summaries set_remote log_call
       add_sleep] in *.

Ltac decide_hyps :=
  repeat match goal with
  | H : bool_decide _ = true |- _ => apply bool_decide_eq_true in H
  | H : bool_decide _ = false |- _ => apply bool_decide_eq_false in H
  end.

(** The four parts of [advances] at the end of an explicit run. *)
Ltac solve_stdout :=
  world_simpl;
  first [ exists []; now rewrite List.app_nil_r
        | rewrite <- ?List.app_assoc; eexists; reflexivity ].

Ltac solve_contents :=
  unfold contents; world_simpl; cbn [from_option id];
  first [ exists ""; now rewrite append_empty_r
        | rewrite ?append_assoc; eexists; reflexivity ].

Ltac solve_paper_calls :=
  repeat (apply List.Forall_cons;
          [ cbn [paper_call];
            first [ exact I
                  | split; [reflexivity |
                      split; [reflexivity | eexists; reflexivity]] ] |]);
  apply List.Forall_nil.

Ltac solve_calls :=
  world_simpl;
  first [ exists []; split; [now rewrite List.app_nil_r | apply List.Forall_nil]
        | rewrite <- ?List.app_assoc; eexists;
          split; [reflexivity | solve_paper_calls] ].

Ltac solve_dirs :=
  let pending := fresh "pending" in
  let archive := fresh "archive" in
  let Hp := fresh "Hp" in
  let Ha := fresh "Ha" in
  intros pending archive Hp Ha; world_simpl; decide_hyps;
  first [ congruence
        | simplify_eq;
          eexists _, _; split; [eassumption || reflexivity |];
          split; [eassumption || reflexivity |]; set_solver ].

Ltac solve_advances :=
  constructor; [solve_stdout | solve_contents | solve_calls | solve_dirs].

Section Loop.
Context (env : Env) (master_prompt : string)
        (pdf_citekey_map : gmap string string)
        (siunitx_manual_file : option File).

Abbreviation paper :=
  (process_paper env master_prompt pdf_citekey_map siunitx_manual_file).
Abbreviation batch :=
  (process_all env master_prompt pdf_citekey_map siunitx_manual_file).
Abbreviation moves_on :=
  (advances master_prompt siunitx_manual_file).

Lemma advances_refl (touched : list string) (w : World) :
  moves_on touched w w.
Proof. solve_advances. Qed.

Lemma advances_trans (t1 t2 : list string) (w1 w2 w3 : World) :
  moves_on t1 w1 w2 -> moves_on t2 w2 w3 -> moves_on (t1 ++ t2) w1 w3.
Proof.
  intros [[o1 Ho1] [s1 Hs1] (c1 & Hc1 & Hf1) Hd1]
         [[o2 Ho2] [s2 Hs2] (c2 & Hc2 & Hf2) Hd2].
  constructor.
  - exists (o1 ++ o2). now rewrite Ho2, Ho1, List.app_assoc.
  - exists (s1 +:+ s2). now rewrite Hs2, Hs1, append_assoc.
  - exists (c1 ++ c2). split; [now rewrite Hc2, Hc1, List.app_assoc |].
    now apply List.Forall_app.
  - intros pending archive Hp Ha.
    destruct (Hd1 _ _ Hp Ha) as (p2 & a2 & Hp2 & Ha2 & ? & ? & Hk1).
    destruct (Hd2 _ _ Hp2 Ha2) as (p3 & a3 & Hp3 & Ha3 & ? & ? & Hk2).
    exists p3, a3. repeat split; [assumption | assumption | | |].
    + set_solver.
    + set_solver.
    + intros g Hg Hnot. apply Hk2; [apply Hk1 |]; set_solver.
Qed.

(** An iteration always returns: its handler catches everything.  It
    only advances the world, and touches no paper but its own. *)
Lemma process_paper_advances (f : string) (w : World) :
  post (paper f) w (fun r w' => r = inr tt /\ moves_on [f] w w').
Proof.
  run; (split; [reflexivity | solve_advances]).
Qed.

Lemma process_paper_returns (f : string) (w : World) :
  paper f w = (inr tt, (paper f w).2).
Proof.
  destruct (process_paper_advances f w) as [Hr _].
  destruct (paper f w) as [r w']. cbn in *. now subst r.
Qed.

(** The loop returns and advances the world; it touches no paper
    outside its list. *)
Lemma process_all_advances (fs : list string) (w : World) :
  post (batch fs) w (fun r w' => r = inr tt /\ moves_on fs w w').
Proof.
  revert w. induction fs as [|f fs IH]; intros w; cbn [process_all].
  - step. split; [reflexivity | apply advances_refl].
  - step. eapply post_wand; [apply process_paper_advances |].
    intros r w1 [-> Hstep]. cbv beta iota.
    eapply post_wand; [apply IH |].
    intros r w2 [-> Hrest]. split; [reflexivity |].
    exact (advances_trans [f] fs _ _ _ Hstep Hrest).
Qed.

Lemma process_all_returns (fs : list string) (w : World) :
  batch fs w = (inr tt, (batch fs w).2).
Proof.
  destruct (process_all_advances fs w) as [Hr _].
  destruct (batch fs w) as [r w']. cbn in *. now subst r.
Qed.

(** The loop over a list is the loop over its front, then over its
    back from wherever the front left the world. *)
Lemma process_all_app (l1 l2 : list string) (w : World) :
  batch (l1 ++ l2) w = batch l2 (batch l1 w).2.
Proof.
  revert w. induction l1 as [|f l1 IH]; intros w; [reflexivity |].
  cbn [app process_all]. unfold bind.
  rewrite (process_paper_returns f w). apply IH.
Qed.

Lemma process_all_cons (f : string) (fs : list string) (w : World) :
  batch (f :: fs) w = batch fs (paper f w).2.
Proof.
  cbn [process_all]. unfold bind. now rewrite (process_paper_returns f w).
Qed.

(** What an iteration prints first and which call it makes first. *)
Lemma process_paper_starts (f : string) (w : World) :
  post (paper f) w (fun _ w' =>
    (exists rest,
       stdout w' = stdout w ++
         [processing_banner f;
          if String.eqb (resolve_citekey pdf_citekey_map f)
                        (OsPath.splitext f).1
          then fallback_warning f
          else found_notice (resolve_citekey pdf_citekey_map f);
          "  - Uploading paper to Gemini..."] ++ rest) /\
    (exists more,
       calls w' = calls w ++
         UploadFile Paper (OsPath.join PAPERS_TO_READ_DIR f) f :: more)).
Proof.
  run; world_simpl;
    (split; rewrite <- ?List.app_assoc; cbn [app]; eexists; reflexivity).
Qed.

Lemma prompt_parts_last (uploaded_file : File) :
  exists rest,
    prompt_parts master_prompt siunitx_manual_file uploaded_file
      = rest ++ [Attached uploaded_file].
Proof.
  unfold prompt_parts. destruct siunitx_manual_file as [manual|].
  - now exists [Text master_prompt; Attached manual].
  - now exists [Text master_prompt].
Qed.

(** With a cooperative environment the paper is summarised, the
    record is appended and the file is archived, whether or not the
    final remote delete succeeds. *)
Lemma process_paper_cooperative (f summary : string) (w : World)
    (pending archive : gset string) :
  cooperative env f summary ->
  papers_to_read w = Some pending -> read_papers w = Some archive ->
  f ∈ pending ->
  post (paper f) w (fun _ w' =>
    papers_to_read w' = Some (pending ∖ {[f]}) /\
    read_papers w' = Some ({[f]} ∪ archive) /\
    summaries w' =
      Some (contents w
              +:+ section_header (resolve_citekey pdf_citekey_map f)
              +:+ summary +:+ SEPARATOR)).
Proof.
  intros (Hup & Hgen & Hopen & Hmove) Hp Ha Hin.
  destruct (prompt_parts_last (fresh_file (next_file w) f)) as [rest Hl].
  pose proof (Hgen _ _ _ Hl eq_refl) as Hg.
  run; world_simpl; decide_hyps; try congruence.
  all: rewrite Hg in *; simplify_eq.
  all: cbn [text] in *; simplify_eq.
  all: repeat split; unfold contents; cbn [from_option id];
    now rewrite !append_assoc.
Qed.

(** An exception raised anywhere in the [try] block is reported. *)
Lemma process_paper_reports (f : string) (w wfail : World) (e : exn) :
  process_steps env master_prompt siunitx_manual_file f
      (resolve_citekey pdf_citekey_map f) (entering pdf_citekey_map f w)
    = (inl e, wfail) ->
  stdout (paper f w).2
    = stdout wfail ++
        [error_report f e;
         "  - Skipping this file and moving to the next one."].
Proof.
  intros Hfail.
  cbv [entering process_paper bind print modify announce_citekey
       try_except ret snd] in *.
  destruct (resolve_citekey pdf_citekey_map f =? (OsPath.splitext f).1)%string;
    rewrite Hfail; cbn [stdout set_stdout];
    now rewrite <- List.app_assoc.
Qed.

(** Every paper of the list gets its banner and its upload call. *)
Lemma process_all_visits (fs : list string) (w : World) (g : string) :
  g ∈ fs ->
  processing_banner g ∈ stdout (batch fs w).2 /\
  UploadFile Paper (OsPath.join PAPERS_TO_READ_DIR g) g
    ∈ calls (batch fs w).2.
Proof.
  revert w. induction fs as [|f fs IH]; intros w Hg.
  - now apply elem_of_nil in Hg.
  - rewrite process_all_cons.
    apply elem_of_cons in Hg as [-> | Hg]; [|now apply IH].
    destruct (process_paper_starts f w) as [[rest Hout] [more Hcalls]].
    destruct (process_all_advances fs (paper f w).2)
      as [_ [[out Hout'] _ (cs & Hcalls' & _) _]].
    rewrite Hout', Hout, Hcalls', Hcalls. split; set_solver.
Qed.

End Loop.

End LoopFacts.

Import Run.

(** C3: the loop over the pending papers always returns, whatever fails;
    every paper of the list gets its banner and its upload attempt; an
    exception raised by any step of a paper's try block (upload,
    generation, saving, archiving, remote delete) is reported in the
    output; and a paper [f] for which the environment cooperates is
    summarised, saved and archived whatever happened to the papers
    before it and whatever happens to those after it. *)
Theorem batch_survives_failures
    (env : Env) (master_prompt : string)
    (pdf_citekey_map : gmap string string)
    (siunitx_manual_file : option File)
    (before after : list string) (f summary : string) (w : World)
    (pending archive : gset string) :
  papers_to_read w = Some pending -> read_papers w = Some archive ->
  f ∈ pending -> f ∉ before ->
  cooperative env f summary ->
  let batch :=
    process_all env master_prompt pdf_citekey_map siunitx_manual_file in
  let pdf_files := before ++ f :: after in
  let w' := (batch pdf_files w).2 in
  (batch pdf_files w).1 = inr tt /\
  (forall g, g ∈ pdf_files ->
     processing_banner g ∈ stdout w' /\
     UploadFile Paper (OsPath.join PAPERS_TO_READ_DIR g) g ∈ calls w') /\
  (forall l1 g l2 e wfail,
     pdf_files = l1 ++ g :: l2 ->
     process_steps env master_prompt siunitx_manual_file g
         (resolve_citekey pdf_citekey_map g)
         (entering pdf_citekey_map g (batch l1 w).2)
       = (inl e, wfail) ->
     error_report g e ∈ stdout w') /\
  (exists pending' archive',
     papers_to_read w' = Some pending' /\ read_papers w' = Some archive' /\
     (f ∉ pending') /\ (f ∈ archive')) /\
  (exists pre post,
     contents w' =
       pre +:+ section_header (resolve_citekey pdf_citekey_map f)
           +:+ summary +:+ SEPARATOR +:+ post).
Proof.
  intros Hp Ha Hin Hfresh Hcoop batch pdf_files w'.
  split; [| split; [| split]].
  - subst batch. now rewrite LoopFacts.process_all_returns.
  - intros g Hg. now apply LoopFacts.process_all_visits.
  - intros l1 g l2 e wfail Hsplit Hfail. subst w'. rewrite Hsplit.
    subst batch. rewrite LoopFacts.process_all_app, LoopFacts.process_all_cons.
    pose proof (LoopFacts.process_paper_reports _ _ _ _ _ _ _ _ Hfail) as Hout.
    destruct (LoopFacts.process_all_advances env master_prompt pdf_citekey_map
                siunitx_manual_file l2
                (process_paper env master_prompt pdf_citekey_map
                   siunitx_manual_file g
                   (process_all env master_prompt pdf_citekey_map
                      siunitx_manual_file l1 w).2).2)
      as [_ [[out Hout'] _ _ _]].
    rewrite Hout', Hout. set_solver.
  - subst w' pdf_files batch.
    rewrite LoopFacts.process_all_app, LoopFacts.process_all_cons.
    destruct (LoopFacts.process_all_advances env master_prompt pdf_citekey_map
                siunitx_manual_file before w) as [_ [_ _ _ Hdirs]].
    destruct (Hdirs _ _ Hp Ha) as (p1 & a1 & Hp1 & Ha1 & _ & _ & Hkeep).
    set (w1 := (process_all env master_prompt pdf_citekey_map
                  siunitx_manual_file before w).2) in *.
    destruct (LoopFacts.process_paper_cooperative env master_prompt
                pdf_citekey_map siunitx_manual_file f summary w1 p1 a1
                Hcoop Hp1 Ha1 (Hkeep f Hin Hfresh))
      as (Hp2 & Ha2 & Hs2).
    set (w2 := (process_paper env master_prompt pdf_citekey_map
                  siunitx_manual_file f w1).2) in *.
    destruct (LoopFacts.process_all_advances env master_prompt pdf_citekey_map
                siunitx_manual_file after w2)
      as [_ [_ [more Hmore] _ Hdirs3]].
    destruct (Hdirs3 _ _ Hp2 Ha2) as (p3 & a3 & Hp3 & Ha3 & Hsub & Hsup & _).
    split.
    + exists p3, a3. repeat split; [assumption | assumption | |]; set_solver.
    + exists (contents w1), more. rewrite Hmore. unfold contents at 1.
      rewrite Hs2. cbn [from_option id].
      now rewrite !PyStrFacts.append_assoc.
Qed.

Lemma batch_survives_failures_witness :
  let w' :=
    (process_all (flaky_env "a.pdf") "Summarise." ∅ None ["a.pdf"; "b.pdf"]
       (fresh_world ({["a.pdf"]} ∪ {["b.pdf"]}))).2 in
  error_report "a.pdf" (OtherError "429 quota exceeded") ∈ stdout w' /\
  (exists pending' archive',
     papers_to_read w' = Some pending' /\ read_papers w' = Some archive' /\
     ("b.pdf" ∉ pending') /\ ("b.pdf" ∈ archive')) /\
  (exists pre post,
     contents w' =
       pre +:+ section_header "b" +:+ "A summary." +:+ SEPARATOR +:+ post).
Proof.
  intros w'.
  destruct (batch_survives_failures (flaky_env "a.pdf") "Summarise." ∅ None
              ["a.pdf"] [] "b.pdf" "A summary."
              (fresh_world ({["a.pdf"]} ∪ {["b.pdf"]}))
              ({["a.pdf"]} ∪ {["b.pdf"]}) ∅)
    as (_ & _ & Hreport & Harchived & Hsaved).
  - reflexivity.
  - reflexivity.
  - set_solver.
  - set_solver.
  - split; [reflexivity | split; [| split; reflexivity]].
    intros parts doc rest -> Hdoc. cbn [flaky_env generate].
    rewrite last_snoc, Hdoc. reflexivity.
  - split; [| split; [exact Harchived | exact Hsaved]].
    eapply (Hreport [] "a.pdf" ["b.pdf"]); reflexivity.
Defined.

(** C7: a pending paper whose file name is not a key of the index is
    resolved to the stem of its file name, [os.path.splitext(name)[0]]
    (for a name [stem.ext] that is [stem]); the iteration prints the
    fallback warning right after its banner and goes on to upload the
    paper, and it returns normally. *)
Theorem missing_citekey_falls_back_to_stem
    (env : Env) (master_prompt : string)
    (pdf_citekey_map : gmap string string)
    (siunitx_manual_file : option File) (pdf_file : string) (w : World) :
  pdf_citekey_map !! pdf_file = None ->
  let run :=
    process_paper env master_prompt pdf_citekey_map siunitx_manual_file
      pdf_file w in
  resolve_citekey pdf_citekey_map pdf_file = (OsPath.splitext pdf_file).1 /\
  (forall stem ext,
     pdf_file = stem +:+ "." +:+ ext ->
     mem "/" pdf_file = false -> mem "." ext = false ->
     forallb (fun c => Ascii.eqb c ".") (list_ascii_of_string stem) = false ->
     resolve_citekey pdf_citekey_map pdf_file = stem) /\
  run.1 = inr tt /\
  (exists rest,
     stdout run.2 = stdout w ++
       [processing_banner pdf_file; fallback_warning pdf_file;
        "  - Uploading paper to Gemini..."] ++ rest) /\
  (exists more,
     calls run.2 = calls w ++
       UploadFile Paper (OsPath.join PAPERS_TO_READ_DIR pdf_file) pdf_file
         :: more).
Proof.
  intros Habsent run.
  assert (resolve_citekey pdf_citekey_map pdf_file
            = (OsPath.splitext pdf_file).1) as Hkey.
  { unfold resolve_citekey. now rewrite Habsent. }
  split; [exact Hkey |]. split.
  { intros stem ext -> Hslash Hdot Hstem. rewrite Hkey.
    now rewrite OsPathFacts.splitext_stem. }
  split.
  { subst run. now rewrite LoopFacts.process_paper_returns. }
  pose proof (LoopFacts.process_paper_starts env master_prompt
                pdf_citekey_map siunitx_manual_file pdf_file w) as Hstart.
  unfold post in Hstart. rewrite Hkey, String.eqb_refl in Hstart.
  exact Hstart.
Qed.

Lemma missing_citekey_falls_back_to_stem_witness :
  let run :=
    process_paper (quiet_env []) "Summarise." ∅ None "hayes2002.pdf"
      (fresh_world {["hayes2002.pdf"]}) in
  resolve_citekey ∅ "hayes2002.pdf" = "hayes2002" /\
  fallback_warning "hayes2002.pdf" ∈ stdout run.2.
Proof.
  intros run.
  destruct (missing_citekey_falls_back_to_stem (quiet_env []) "Summarise."
              ∅ None "hayes2002.pdf" (fresh_world {["hayes2002.pdf"]}))
    as (_ & Hstem & _ & [rest Hout] & _).
  - reflexivity.
  - split.
    + apply (Hstem "hayes2002" "pdf"); reflexivity.
    + subst run. rewrite Hout. set_solver.
Defined.

(** C10: when the file name is a key of the index and the citation key
    mapped to it equals the stem of the file name, the iteration still
    prints the could-not-find-citekey warning (and not the found-citekey
    line): the test compares the resolved key with the stem. *)
Theorem indexed_stem_still_warns
    (env : Env) (master_prompt : string)
    (pdf_citekey_map : gmap string string)
    (siunitx_manual_file : option File) (pdf_file : string) (w : World) :
  pdf_citekey_map !! pdf_file = Some (OsPath.splitext pdf_file).1 ->
  let run :=
    process_paper env master_prompt pdf_citekey_map siunitx_manual_file
      pdf_file w in
  pdf_file ∈ dom pdf_citekey_map /\
  exists rest,
    stdout run.2 = stdout w ++
      [processing_banner pdf_file; fallback_warning pdf_file;
       "  - Uploading paper to Gemini..."] ++ rest.
Proof.
  intros Hkey run. split.
  { apply elem_of_dom. eauto. }
  pose proof (LoopFacts.process_paper_starts env master_prompt
                pdf_citekey_map siunitx_manual_file pdf_file w) as Hstart.
  unfold post, resolve_citekey in Hstart. rewrite Hkey in Hstart.
  cbn [from_option id] in Hstart. rewrite String.eqb_refl in Hstart.
  exact (proj1 Hstart).
Qed.

Lemma indexed_stem_still_warns_witness :
  let index : gmap string string := {["hayes2002.pdf" := "hayes2002"]} in
  let run :=
    process_paper (quiet_env []) "Summarise." index None "hayes2002.pdf"
      (fresh_world {["hayes2002.pdf"]}) in
  "hayes2002.pdf" ∈ dom index /\
  fallback_warning "hayes2002.pdf" ∈ stdout run.2.
Proof.
  intros index run.
  destruct (indexed_stem_still_warns (quiet_env []) "Summarise." index None
              "hayes2002.pdf" (fresh_world {["hayes2002.pdf"]}))
    as (Hdom & rest & Hout).
  - reflexivity.
  - split; [exact Hdom |]. subst run. rewrite Hout. set_solver.
Defined.

(* --------------------------------------------------------------------- *)
(* The whole run                                                         *)
(* --------------------------------------------------------------------- *)
Module MainFacts.
Import PyStrFacts RunRules LoopFacts.

(** A step of [main]: as in the loop, except that the loop itself is
    taken as a whole. *)
Ltac step_main :=
  lazymatch goal with
  | |- post (main _) _ _ => unfold main
  | |- post (load_master_prompt _) _ _ => unfold load_master_prompt
  | |- post (load_citekey_map _) _ _ => unfold load_citekey_map
  | |- post (upload_manual _) _ _ => unfold upload_manual
  | |- post (find_pdf_files _) _ _ => unfold find_pdf_files
  | |- post (process_all _ _ _ _ _) _ _ =>
      eapply post_wand;
      [ apply process_all_advances
      | let r := fresh "r" in
        let w := fresh "w" in
        let H := fresh "Hbatch" in
        intros r w [-> H]; cbv beta iota ]
  | |- _ => step
  end.

Ltac run_main := repeat step_main.

(** The module body: with a credential the API is configured and
    [main] runs; without one the script exits with status 1. *)
Lemma configure_api_with_key (env : Env) (w : World) :
  has_credential env = true ->
  configure_api env w
    = (inr None,
       set_stdout (fun out => out ++
           ["-> Configured Gemini API with key from environment variable."])
         (log_call (Configure (default "" (GEMINI_API_KEY env))) w)).
Proof.
  unfold has_credential, configure_api. intros ->. reflexivity.
Qed.

Lemma configure_api_without_key (env : Env) (w : World) :
  has_credential env = false ->
  configure_api env w
    = (inr (Some 1), set_stdout (fun out => out ++ NO_KEY_DIAGNOSTIC) w).
Proof.
  unfold has_credential, configure_api. intros ->. reflexivity.
Qed.

Lemma script_with_key (env : Env) (w : World) :
  has_credential env = true ->
  script env w
    = let started :=
        set_stdout (fun out => out ++
            ["-> Configured Gemini API with key from environment variable."])
          (log_call (Configure (default "" (GEMINI_API_KEY env))) w) in
      (match (main env started).1 with inr _ => 0 | inl _ => 1 end,
       (main env started).2).
Proof.
  intros Hkey. unfold script. rewrite (configure_api_with_key _ _ Hkey).
  cbv zeta. now destruct (main env _) as [[e|[]] w2].
Qed.

(** With nothing to process, [main] returns without touching the
    summaries or calling the service for a paper, and its last line is
    the no-papers notice. *)
Lemma main_empty_scan (env : Env) (w : World) (prompt : string)
    (entries : list (gmap string string)) :
  master_prompt_file env = inr prompt ->
  bibtex_file env = inr entries ->
  listdir_fault env = None ->
  List.filter Resolver.names_document
    (elements (default ∅ (papers_to_read w))) = [] ->
  post (main env) w (fun r w' =>
    r = inr tt /\
    summaries w' = summaries w /\
    papers_to_read w' = Some (default ∅ (papers_to_read w)) /\
    read_papers w' = Some (default ∅ (read_papers w)) /\
    (exists out, stdout w' = (stdout w ++ out) ++ [NO_PAPERS_NOTICE]) /\
    calls w' = calls w ++
      (if manual_exists env
       then [UploadFile Manual SIUNITX_MANUAL "siunitx.pdf"] else []) /\
    (manual_exists env = true -> upload_fault env SIUNITX_MANUAL = None ->
     remote w' = {[name (fresh_file (next_file w) "siunitx.pdf")]}
                   ∪ remote w)).
Proof.
  intros Hprompt Hbib Hlist Hscan.
  run_main; world_simpl; try congruence.
  all: repeat split; try reflexivity; try congruence.
  all: try (apply List.app_nil_r || (symmetry; apply List.app_nil_r)).
  all: eexists; f_equal; rewrite <- ?List.app_assoc; reflexivity.
Qed.

Ltac close_fatal :=
  repeat split; try reflexivity;
  [ first [ exists []; split; [now rewrite List.app_nil_r | constructor]
          | eexists; split; [reflexivity | repeat constructor] ]
  | rewrite <- ?List.app_assoc; eexists;
    split; [reflexivity | unfold reports; cbn [diagnostic]; set_solver] ].

(** On a condition met inside [main], [main] returns before any paper is
    touched.  It prints the diagnostic of the condition; for an input
    directory that is missing at the start there is none: the directory
    has been created, the scan is empty and [main] ends with the
    no-papers notice. *)
Lemma main_fatal (env : Env) (w : World) (c : fatal) :
  meets env w c -> c <> NoCredential ->
  post (main env) w (fun r w' =>
    r = inr tt /\
    summaries w' = summaries w /\
    papers_to_read w' = Some (default ∅ (papers_to_read w)) /\
    read_papers w' = Some (default ∅ (read_papers w)) /\
    (exists new, calls w' = calls w ++ new /\
                 Forall (fun c => touches_paper c = false) new) /\
    (exists out, stdout w' = stdout w ++ out /\ reports c out)).
Proof.
  intros Hmeets Hcause.
  destruct c; cbn [meets] in Hmeets; [congruence | | | | |].
  - destruct Hmeets as (_ & msg & Hprompt).
    run_main; world_simpl; try congruence; close_fatal.
  - destruct Hmeets as (_ & [prompt Hprompt] & msg & Hbib).
    run_main; world_simpl; try congruence; close_fatal.
  - destruct Hmeets as (_ & [prompt Hprompt] & Hbib).
    run_main; world_simpl; try congruence; simplify_eq; close_fatal.
  - destruct Hmeets
      as (_ & [prompt Hprompt] & [entries Hbib] & Hlist & Hmissing).
    run_main; world_simpl; try congruence.
    all: simplify_eq.
    all: try match goal with
             | H : List.filter _ _ = _ :: _ |- _ =>
                 rewrite Hmissing in H; cbn [from_option id] in H;
                 rewrite elements_empty in H; discriminate H
             end.
    all: unfold Resolver.create_pdf_to_citekey_map in *; simplify_eq.
    all: repeat split; try reflexivity;
      [ first [ exists []; split; [now rewrite List.app_nil_r | constructor]
              | eexists; split; [reflexivity | repeat constructor] ]
      | rewrite <- ?List.app_assoc; eexists; split; [reflexivity |] ].
    all: unfold reports; cbn [diagnostic]; case_bool_decide; cbn [app].
    all: split; [repeat constructor | reflexivity].
  - destruct Hmeets as (_ & [prompt Hprompt] & [entries Hbib] & msg & Hdir).
    run_main; world_simpl; try congruence; close_fatal.
Qed.

(** With papers to process and the manual uploaded, [main] ends with
    the delete of the manual, after the calls of the loop. *)
Lemma main_deletes_manual_after_batch (env : Env) (w : World)
    (prompt : string) (entries : list (gmap string string))
    (f : string) (fs : list string) :
  master_prompt_file env = inr prompt ->
  bibtex_file env = inr entries ->
  manual_exists env = true ->
  upload_fault env SIUNITX_MANUAL = None ->
  listdir_fault env = None ->
  List.filter Resolver.names_document
    (elements (default ∅ (papers_to_read w))) = f :: fs ->
  post (main env) w (fun _ w' =>
    let manual := fresh_file (next_file w) "siunitx.pdf" in
    exists papers,
      calls w' =
        ((calls w ++ [UploadFile Manual SIUNITX_MANUAL "siunitx.pdf"])
           ++ papers) ++ [DeleteFile Manual (name manual)] /\
      Forall (paper_call prompt (Some manual)) papers).
Proof.
  intros Hprompt Hbib Hexists Hupload Hlist Hscan.
  run_main; world_simpl; try congruence;
    match goal with
    | H : advances _ _ _ _ _ |- _ =>
        destruct H as [_ _ (more & Hcalls & Hpapers) _];
        world_simpl; rewrite Hcalls
    end;
    simplify_eq; exists more; (split; [reflexivity | assumption]).
Qed.

End MainFacts.




(** C9: when the setup succeeds and the input directory holds no file
    whose name ends in .pdf or .html, the script ends with exit status
    0; it makes no call for a paper, the summaries file and the two
    directories are as setup left them, and the last line printed is the
    no-papers notice. *)
Theorem empty_scan_ends_quietly
    (env : Env) (w : World) (prompt : string)
    (entries : list (gmap string string)) :
  has_credential env = true ->
  master_prompt_file env = inr prompt ->
  bibtex_file env = inr entries ->
  listdir_fault env = None ->
  List.filter names_document (elements (default ∅ (papers_to_read w))) = [] ->
  let status := (script env w).1 in
  let w' := (script env w).2 in
  status = 0 /\
  summaries w' = summaries w /\
  papers_to_read w' = Some (default ∅ (papers_to_read w)) /\
  read_papers w' = Some (default ∅ (read_papers w)) /\
  (exists new, calls w' = calls w ++ new /\
               Forall (fun c => touches_paper c = false) new) /\
  (exists out, stdout w' = (stdout w ++ out) ++ [NO_PAPERS_NOTICE]).
Proof.
  intros Hkey Hprompt Hbib Hlist Hscan status w'. subst status w'.
  rewrite (MainFacts.script_with_key _ _ Hkey). cbv zeta.
  pose proof (MainFacts.main_empty_scan env
                (set_stdout (fun out => out ++
                    ["-> Configured Gemini API with key from environment variable."])
                   (log_call (Configure (default "" (GEMINI_API_KEY env))) w))
                prompt entries Hprompt Hbib Hlist Hscan) as Hmain.
  unfold post in Hmain.
  destruct (main env _) as [r w2].
  cbn [fst snd stdout calls summaries papers_to_read read_papers remote
       next_file set_stdout log_call] in *.
  destruct Hmain as (-> & Hs & Hp & Ha & (out & Hout) & Hcalls & _).
  repeat split; try assumption.
  - eexists. split; [rewrite Hcalls, <- List.app_assoc; reflexivity |].
    constructor; [reflexivity |]. destruct (manual_exists env); repeat constructor.
  - exists ("-> Configured Gemini API with key from environment variable."
            :: out).
    rewrite Hout. f_equal. now rewrite <- List.app_assoc.
Qed.

Lemma empty_scan_ends_quietly_witness :
  let run := script (quiet_env []) (fresh_world {["notes.txt"]}) in
  run.1 = 0 /\ summaries run.2 = None /\
  papers_to_read run.2 = Some {["notes.txt"]}.
Proof.
  intros run.
  destruct (empty_scan_ends_quietly (quiet_env [])
              (fresh_world {["notes.txt"]}) "Summarise." [])
    as (Hstatus & Hsummaries & Hpending & _); try reflexivity.
  split; [exact Hstatus | split; [exact Hsummaries | exact Hpending]].
Defined.

(** C1, where the code departs from it: when the manual has been
    uploaded and the input directory holds no eligible file, the script
    returns after the upload; it makes no delete call for the manual, and
    the handle stays alive on the service. *)
Theorem manual_not_deleted_on_empty_scan
    (env : Env) (w : World) (prompt : string)
    (entries : list (gmap string string)) :
  has_credential env = true ->
  master_prompt_file env = inr prompt ->
  bibtex_file env = inr entries ->
  manual_exists env = true ->
  upload_fault env SIUNITX_MANUAL = None ->
  listdir_fault env = None ->
  List.filter names_document (elements (default ∅ (papers_to_read w))) = [] ->
  let status := (script env w).1 in
  let w' := (script env w).2 in
  let manual := fresh_file (next_file w) "siunitx.pdf" in
  status = 0 /\
  calls w' = calls w ++
    [Configure (default "" (GEMINI_API_KEY env));
     UploadFile Manual SIUNITX_MANUAL "siunitx.pdf"] /\
  (forall c, c ∈ calls w' -> c ∈ calls w \/ deletes_manual c = false) /\
  remote w' = {[name manual]} ∪ remote w.
Proof.
  intros Hkey Hprompt Hbib Hexists Hupload Hlist Hscan status w' manual.
  subst status w' manual.
  rewrite (MainFacts.script_with_key _ _ Hkey). cbv zeta.
  pose proof (MainFacts.main_empty_scan env
                (set_stdout (fun out => out ++
                    ["-> Configured Gemini API with key from environment variable."])
                   (log_call (Configure (default "" (GEMINI_API_KEY env))) w))
                prompt entries Hprompt Hbib Hlist Hscan) as Hmain.
  unfold post in Hmain.
  destruct (main env _) as [r w2].
  cbn [fst snd stdout calls summaries papers_to_read read_papers remote
       next_file set_stdout log_call] in *.
  destruct Hmain as (-> & _ & _ & _ & _ & Hcalls & Hremote).
  rewrite Hexists in Hcalls.
  assert (calls w2 = calls w ++
            [Configure (default "" (GEMINI_API_KEY env));
             UploadFile Manual SIUNITX_MANUAL "siunitx.pdf"]) as Hall.
  { now rewrite Hcalls, <- List.app_assoc. }
  repeat split.
  - exact Hall.
  - intros c. rewrite Hall, elem_of_app, !elem_of_cons, elem_of_nil.
    intros [? | [-> | [-> | []]]]; [now left | now right | now right].
  - now apply Hremote.
Qed.

Lemma manual_not_deleted_on_empty_scan_witness :
  let run := script (quiet_env []) (fresh_world {["notes.txt"]}) in
  run.1 = 0 /\
  calls run.2 =
    [Configure "key"; UploadFile Manual "assets/siunitx.pdf" "siunitx.pdf"] /\
  remote run.2 = {["files/0"]} ∪ ∅.
Proof.
  intros run.
  destruct (manual_not_deleted_on_empty_scan (quiet_env [])
              (fresh_world {["notes.txt"]}) "Summarise." [])
    as (Hstatus & Hcalls & _ & Hremote); try reflexivity.
  split; [exact Hstatus | split; [exact Hcalls | exact Hremote]].
Defined.

(* --------------------------------------------------------------------- *)
(* The calls of the loop, paper by paper                                 *)
(* --------------------------------------------------------------------- *)
Import Requests.

Module RequestFacts.
Import PyStrFacts RunRules LoopFacts.

(** The list lines 187-190 build is the payload of the specification. *)
Lemma prompt_parts_payload (prompt : string) (attachment : option File)
    (document : File) :
  prompt_parts prompt attachment document = payload prompt attachment document.
Proof. now destruct attachment. Qed.

Section Batch.
Context (env : Env) (master_prompt : string)
        (pdf_citekey_map : gmap string string)
        (siunitx_manual_file : option File).

(** The calls of one iteration, and what it does to the service's
    count of files. *)
Lemma process_paper_trace (f : string) (w : World) :
  post (process_paper env master_prompt pdf_citekey_map siunitx_manual_file f)
    w (fun r w' =>
      r = inr tt /\
      batch_trace env master_prompt siunitx_manual_file (next_file w) [f]
        (drop (length (calls w)) (calls w')) /\
      calls w' = calls w ++ drop (length (calls w)) (calls w') /\
      next_file w' =
        match upload_fault env (OsPath.join PAPERS_TO_READ_DIR f) with
        | Some _ => next_file w
        | None => S (next_file w)
        end).
Proof.
  run; world_simpl.
  all: rewrite ?prompt_parts_payload, <- ?List.app_assoc, drop_app_length.
  all: split; [reflexivity |].
  all: split; [| split; [reflexivity |]].
  all: cbn [batch_trace]; cbv zeta;
    match goal with
    | H : upload_fault _ _ = _ |- _ => rewrite H
    end; try reflexivity.
  all: try (eexists; split; reflexivity).
  all: cbn [app].
  all: first
    [ exists [], []; split; [reflexivity | split; [now left | reflexivity]]
    | eexists [_], []; split; [reflexivity | split; [now right | reflexivity]] ].
Qed.

Lemma process_all_trace (fs : list string) (w : World) :
  post (process_all env master_prompt pdf_citekey_map siunitx_manual_file fs)
    w (fun r w' =>
      r = inr tt /\
      exists papers,
        calls w' = calls w ++ papers /\
        batch_trace env master_prompt siunitx_manual_file (next_file w) fs
          papers).
Proof.
  revert w. induction fs as [|f fs IH]; intros w.
  - unfold post. cbn. split; [reflexivity |]. exists [].
    split; [now rewrite List.app_nil_r | reflexivity].
  - unfold post. rewrite process_all_cons.
    pose proof (process_paper_trace f w) as (_ & Hone & Hcalls & Hnext).
    pose proof (IH (process_paper env master_prompt pdf_citekey_map
                      siunitx_manual_file f w).2)
      as (Hr & later & Hlater & Hrest).
    split; [exact Hr |].
    set (w1 := (process_paper env master_prompt pdf_citekey_map
                  siunitx_manual_file f w).2) in *.
    set (one := drop (length (calls w)) (calls w1)) in *.
    exists (one ++ later).
    split; [now rewrite Hlater, Hcalls, List.app_assoc |].
    cbn [batch_trace] in Hone |- *. cbv zeta in Hone |- *.
    rewrite Hnext in Hrest.
    destruct (upload_fault env (OsPath.join PAPERS_TO_READ_DIR f)).
    + destruct Hone as (nil & -> & ->). now exists later.
    + destruct Hone as (tail & nil & -> & Htail & ->).
      exists tail, later. rewrite List.app_nil_r. now repeat split.
Qed.

End Batch.

(** As [MainFacts.step_main], with the loop taken through its trace. *)
Ltac step_tracing :=
  lazymatch goal with
  | |- post (process_all _ _ _ _ _) _ _ =>
      eapply post_wand;
      [ apply process_all_trace
      | let r := fresh "r" in
        let w := fresh "w" in
        let papers := fresh "papers" in
        let Hcalls := fresh "Hcalls" in
        let Htrace := fresh "Htrace" in
        intros r w (-> & papers & Hcalls & Htrace); cbv beta iota ]
  | |- _ => MainFacts.step_main
  end.

(** The scan of the one-paper directory of the examples. *)
Lemma scan_one :
  List.filter names_document
    (elements (default ∅ (papers_to_read (fresh_world {["a.pdf"]}))))
  = ["a.pdf"].
Proof. reflexivity. Qed.

End RequestFacts.

(** C8: in a run whose setup succeeds, the calls [main] makes are the
    upload of the manual if the manual exists locally, then the calls of
    the loop, then the delete of the manual if there is a handle and at
    least one paper.  In the loop every scanned paper, in the order of
    the scan, has its upload call; when that upload succeeds it is
    followed by exactly one generation request, for the model of the
    script and with a timeout of 600, whose payload is in this order the
    prompt text, the handle of the manual if its upload succeeded, and
    the handle this paper's upload returned.  So the manual is in the
    payload of every request when it was uploaded; when it does not
    exist locally every request is the prompt followed by the paper, the
    manual is never uploaded and no delete of it is called. *)
Theorem generation_payload_order
    (env : Env) (w : World) (prompt : string)
    (entries : list (gmap string string)) :
  master_prompt_file env = inr prompt ->
  bibtex_file env = inr entries ->
  listdir_fault env = None ->
  let pdf_files :=
    List.filter names_document (elements (default ∅ (papers_to_read w))) in
  let siunitx_manual_file := manual_handle env w in
  let first :=
    match siunitx_manual_file with
    | Some _ => S (next_file w)
    | None => next_file w
    end in
  exists papers,
    calls (main env w).2 =
      calls w ++ manual_upload_calls env ++ papers
        ++ manual_delete_calls siunitx_manual_file pdf_files /\
    batch_trace env prompt siunitx_manual_file first pdf_files papers.
Proof.
  intros Hprompt Hbib Hlist.
  change (post (main env) w (fun _ w' =>
    let pdf_files :=
      List.filter names_document (elements (default ∅ (papers_to_read w))) in
    let siunitx_manual_file := manual_handle env w in
    let first :=
      match siunitx_manual_file with
      | Some _ => S (next_file w)
      | None => next_file w
      end in
    exists papers,
      calls w' =
        calls w ++ manual_upload_calls env ++ papers
          ++ manual_delete_calls siunitx_manual_file pdf_files /\
      batch_trace env prompt siunitx_manual_file first pdf_files papers)).
  repeat RequestFacts.step_tracing; LoopFacts.world_simpl; try congruence.
  all: cbv zeta; unfold manual_handle, manual_upload_calls.
  all: change (OsPath.basename SIUNITX_MANUAL) with "siunitx.pdf" in *.
  all: simplify_eq.
  all: repeat match goal with
       | H : manual_exists _ = _ |- _ => rewrite H in *; clear H
       | H : upload_fault _ SIUNITX_MANUAL = _ |- _ => rewrite H in *; clear H
       end.
  all: cbn [manual_delete_calls].
  all: first
    [ exists []; split; [now rewrite ?List.app_nil_r | reflexivity]
    | match goal with
      | Hc : calls _ = _ ++ ?papers, Ht : batch_trace _ _ _ _ _ ?papers |- _ =>
          exists papers; split;
          [ rewrite ?Hc, ?List.app_nil_r, <- ?List.app_assoc; reflexivity
          | exact Ht ]
      end ].
Qed.

Lemma generation_payload_order_witness :
  (exists tail,
     calls (main (quiet_env []) (fresh_world {["a.pdf"]})).2 =
       [UploadFile Manual "assets/siunitx.pdf" "siunitx.pdf";
        UploadFile Paper "papers_to_read/a.pdf" "a.pdf";
        GenerateContent "gemini-2.5-pro"
          [Text "Summarise."; Attached (fresh_file 0 "siunitx.pdf");
           Attached (fresh_file 1 "a.pdf")] 600]
       ++ tail ++ [DeleteFile Manual "files/0"]) /\
  (exists tail,
     calls (main no_manual_env (fresh_world {["a.pdf"]})).2 =
       [UploadFile Paper "papers_to_read/a.pdf" "a.pdf";
        GenerateContent "gemini-2.5-pro"
          [Text "Summarise."; Attached (fresh_file 0 "a.pdf")] 600]
       ++ tail).
Proof.
  split.
  - pose proof (generation_payload_order (quiet_env [])
                  (fresh_world {["a.pdf"]}) "Summarise." [] eq_refl eq_refl
                  eq_refl) as Hrun.
    cbv zeta in Hrun. rewrite RequestFacts.scan_one in Hrun.
    destruct Hrun as (papers & Hcalls & tail & later & -> & _ & ->).
    exists tail. rewrite Hcalls. cbn [app]. now rewrite List.app_nil_r.
  - pose proof (generation_payload_order no_manual_env
                  (fresh_world {["a.pdf"]}) "Summarise." [] eq_refl eq_refl
                  eq_refl) as Hrun.
    cbv zeta in Hrun. rewrite RequestFacts.scan_one in Hrun.
    destruct Hrun as (papers & Hcalls & tail & later & -> & _ & ->).
    exists tail. rewrite Hcalls. cbn [app]. now rewrite !List.app_nil_r.
Defined.

(* ===================================================================== *)
(* Further properties of the script                                      *)
(* ===================================================================== *)

Import Outcomes.

(* --------------------------------------------------------------------- *)
(* More on strings and paths                                             *)
(* --------------------------------------------------------------------- *)
Module PathFacts.
Import PyStr PyStrFacts OsPath OsPathFacts.

(** No segment of a split contains the separator. *)
Lemma split_segments_clean (sep : ascii) (s : string) :
  Forall (fun seg => mem sep seg = false) (split sep s).
Proof.
  induction s as [|c s IH]; cbn [split]; [repeat constructor |].
  destruct (Ascii.eqb c sep) eqn:Hc; [constructor; [reflexivity | exact IH] |].
  destruct (split sep s) as [|h t]; [repeat constructor; cbn; now rewrite Hc |].
  inversion IH as [|? ? Hh Ht]; subst.
  constructor; [cbn [mem]; now rewrite Hc, Hh | exact Ht].
Qed.

(** A segment of a split holds only characters of the string. *)
Lemma split_segments_chars (sep c : ascii) (s : string) :
  mem c s = false ->
  Forall (fun seg => mem c seg = false) (split sep s).
Proof.
  induction s as [|a s IH]; cbn [split mem]; [repeat constructor |].
  intros H. apply orb_false_iff in H as [Ha Hs]. specialize (IH Hs).
  destruct (Ascii.eqb a sep); [constructor; [reflexivity | exact IH] |].
  destruct (split sep s) as [|h t]; [repeat constructor; cbn; now rewrite Ha |].
  inversion IH as [|? ? Hh Ht]; subst.
  constructor; [cbn [mem]; now rewrite Ha, Hh | exact Ht].
Qed.

Lemma rfind_bound (c : ascii) (s : string) : (-1 <= rfind c s)%Z.
Proof.
  induction s as [|a s IH]; cbn [rfind]; [lia |].
  destruct (0 <=? rfind c s)%Z eqn:E; [lia |].
  destruct (Ascii.eqb a c); lia.
Qed.

Lemma rfind_lt (c : ascii) (s : string) :
  (rfind c s < Z.of_nat (String.length s))%Z.
Proof.
  induction s as [|a s IH]; cbn [rfind String.length]; [lia |].
  destruct (0 <=? rfind c s)%Z eqn:E; [lia |].
  destruct (Ascii.eqb a c); lia.
Qed.

Lemma rfind_negative (c : ascii) (s : string) :
  (rfind c s < 0)%Z -> mem c s = false.
Proof.
  induction s as [|a s IH]; cbn [rfind mem]; [reflexivity |].
  destruct (0 <=? rfind c s)%Z eqn:E.
  - apply Z.leb_le in E. lia.
  - apply Z.leb_gt in E. destruct (Ascii.eqb a c); [lia |].
    intros _. now apply IH.
Qed.

(** What follows the last occurrence of a character is free of it. *)
Lemma after_rfind_clean (c : ascii) (s : string) :
  mem c (slice_from (Z.to_nat (rfind c s + 1)) s) = false.
Proof.
  induction s as [|a s IH]; [reflexivity |]. cbn [rfind].
  pose proof (rfind_bound c s) as Hb.
  destruct (0 <=? rfind c s)%Z eqn:E.
  - apply Z.leb_le in E.
    replace (Z.to_nat (rfind c s + 1 + 1)) with (S (Z.to_nat (rfind c s + 1)))
      by lia.
    exact IH.
  - apply Z.leb_gt in E. pose proof (rfind_negative c s E) as Hs.
    destruct (Ascii.eqb a c) eqn:Ha.
    + change (Z.to_nat (0 + 1)) with 1%nat. exact Hs.
    + change (Z.to_nat (-1 + 1)) with 0%nat.
      cbn [slice_from mem]. now rewrite Ha, Hs.
Qed.

(** [basename] never returns a slash. *)
Lemma basename_clean (p : string) : mem "/" (basename p) = false.
Proof. apply after_rfind_clean. Qed.

(** Appending a string free of the character does not move its last
    occurrence. *)
Lemma rfind_app_absent (c : ascii) (a b : string) :
  mem c b = false -> rfind c (a +:+ b) = rfind c a.
Proof.
  intros Hb. induction a as [|x a IH]; rewrite ?append_nil, ?append_cons.
  - now apply rfind_absent.
  - cbn [rfind]. now rewrite IH.
Qed.

Lemma slice_from_app_le (n : nat) (a b : string) :
  (n <= String.length a)%nat ->
  slice_from n (a +:+ b) = slice_from n a +:+ b.
Proof.
  revert a. induction n as [|n IH]; intros a Hn; [reflexivity |].
  destruct a as [|x a]; cbn [String.length] in Hn; [lia |].
  rewrite append_cons. cbn [slice_from]. apply IH. lia.
Qed.

(** A suffix without a slash survives [basename]. *)
Lemma basename_keeps_suffix (s suf : string) :
  mem "/" suf = false ->
  endswith s suf = true -> endswith (basename s) suf = true.
Proof.
  intros Hsuf Hend. apply endswith_inv in Hend as [pre ->].
  unfold basename. rewrite (rfind_app_absent _ _ _ Hsuf).
  rewrite slice_from_app_le; [apply endswith_app |].
  pose proof (rfind_lt "/" pre). pose proof (rfind_bound "/" pre). lia.
Qed.

(** Lower-casing neither makes nor unmakes a slash or a dot. *)
Lemma lower_ascii_keeps (c a : ascii) :
  lower_ascii c = c ->
  (forall x, lower_ascii x = c -> x = c) ->
  Ascii.eqb (lower_ascii a) c = Ascii.eqb a c.
Proof.
  intros Hfix Hinj.
  destruct (Ascii.eqb_spec a c) as [-> | Hne].
  - rewrite Hfix. apply Ascii.eqb_refl.
  - destruct (Ascii.eqb_spec (lower_ascii a) c) as [Heq | ]; [| reflexivity].
    now apply Hinj in Heq.
Qed.

Lemma lower_ascii_slash (x : ascii) : lower_ascii x = "/"%char -> x = "/"%char.
Proof.
  destruct x as [[] [] [] [] [] [] [] []]; vm_compute; congruence.
Qed.

Lemma lower_ascii_dot (x : ascii) : lower_ascii x = "."%char -> x = "."%char.
Proof.
  destruct x as [[] [] [] [] [] [] [] []]; vm_compute; congruence.
Qed.

Lemma rfind_lower_slash (s : string) : rfind "/" (lower s) = rfind "/" s.
Proof.
  induction s as [|a s IH]; [reflexivity |]. cbn [lower rfind].
  rewrite IH, (lower_ascii_keeps "/" a eq_refl lower_ascii_slash).
  reflexivity.
Qed.

Lemma lower_slice_from (n : nat) (s : string) :
  lower (slice_from n s) = slice_from n (lower s).
Proof.
  revert s. induction n as [|n IH]; intros s; [reflexivity |].
  destruct s as [|a s]; [reflexivity | apply IH].
Qed.

Lemma lower_basename (p : string) : lower (basename p) = basename (lower p).
Proof. unfold basename. now rewrite lower_slice_from, rfind_lower_slash. Qed.

End PathFacts.

(* --------------------------------------------------------------------- *)
(* More on the resolver and the index                                    *)
(* --------------------------------------------------------------------- *)
Module IndexFacts.
Import PyStrFacts ResolverFacts OsPathFacts PathFacts.

(** Where a match of the scan comes from. *)
Lemma scan_parts_origin (parts : list string) (p : string) :
  scan_parts parts = Some p ->
  exists part, In part parts /\ In p (split ":" part).
Proof.
  induction parts as [|part parts IH]; cbn [scan_parts]; [discriminate |].
  assert (scan_parts parts = Some p ->
          exists part0, In part0 (part :: parts) /\ In p (split ":" part0))
    as Hrest.
  { intros H. destruct (IH H) as (part0 & Hin & Hseg).
    exists part0. split; [now right | exact Hseg]. }
  destruct (mentions_document part); [| exact Hrest].
  unfold last_document_segment.
  destruct (find names_document (rev (split ":" part))) as [seg|] eqn:E;
    [| exact Hrest].
  intros [= <-]. apply find_some in E as [Hin _].
  exists part. split; [now left | now apply in_rev].
Qed.

Lemma names_document_basename (p : string) :
  names_document p = true -> names_document (OsPath.basename p) = true.
Proof.
  unfold names_document, endswith_any. cbn [existsb].
  rewrite !orb_false_r, lower_basename. intros H.
  apply orb_true_iff in H as [H | H].
  - apply (basename_keeps_suffix _ ".pdf" eq_refl) in H. now rewrite H.
  - apply (basename_keeps_suffix _ ".html" eq_refl) in H. rewrite H.
    apply orb_true_r.
Qed.

(** A binding of the mapping after one iteration was there before or
    comes from the entry. *)
Lemma record_entry_inv (mapping entry : gmap string string) (k v : string) :
  record_entry mapping entry !! k = Some v ->
  mapping !! k = Some v \/
  (truthy v = true /\ entry !! "ID" = Some v /\
   exists ff p, entry !! "file" = Some ff /\
                parse_file_path_from_entry (Some ff) = Some p /\
                OsPath.basename p = k).
Proof.
  unfold record_entry.
  destruct (entry !! "ID") as [ck|]; [| now left].
  destruct (entry !! "file") as [ff|]; [| now left].
  destruct (truthy ck) eqn:Hck; [| now left].
  destruct (truthy ff); [| now left]. cbn [negb orb].
  destruct (parse_file_path_from_entry (Some ff)) as [p|] eqn:Hp; [| now left].
  destruct (truthy p); [| now left].
  destruct (decide (OsPath.basename p = k)) as [<- | Hne].
  - rewrite lookup_insert_eq. intros [= <-]. right.
    split; [exact Hck | split; [reflexivity |]]. now exists ff, p.
  - rewrite lookup_insert_ne by exact Hne. now left.
Qed.

Lemma fold_record_inv (entries : list (gmap string string))
    (mapping : gmap string string) (k v : string) :
  fold_left record_entry entries mapping !! k = Some v ->
  mapping !! k = Some v \/
  exists entry, In entry entries /\
    truthy v = true /\ entry !! "ID" = Some v /\
    exists ff p, entry !! "file" = Some ff /\
                 parse_file_path_from_entry (Some ff) = Some p /\
                 OsPath.basename p = k.
Proof.
  revert mapping. induction entries as [|e entries IH]; intros mapping;
    cbn [fold_left]; [now left |].
  intros H. destruct (IH _ H) as [Hm | (entry & Hin & Hrest)].
  - destruct (record_entry_inv _ _ _ _ Hm) as [? | Hnew]; [now left |].
    right. exists e. split; [now left | exact Hnew].
  - right. exists entry. split; [now right | exact Hrest].
Qed.

Lemma lower_app_inv (s a b : string) :
  lower s = a +:+ b ->
  exists s1 s2, s = s1 +:+ s2 /\ lower s1 = a /\ lower s2 = b.
Proof.
  revert s. induction a as [|x a IH]; intros s.
  - rewrite append_nil. intros H. now exists "", s.
  - rewrite append_cons. destruct s as [|c s]; [discriminate |].
    cbn [lower]. intros [= Hc Hs].
    destruct (IH s Hs) as (s1 & s2 & -> & <- & <-).
    exists (String c s1), s2. now rewrite <- Hc.
Qed.

Lemma mem_dot_lower (s : string) : mem "." (lower s) = mem "." s.
Proof.
  induction s as [|a s IH]; [reflexivity |]. cbn [lower mem].
  now rewrite IH, (lower_ascii_keeps "." a eq_refl lower_ascii_dot).
Qed.

(** A suffix that lower-cases to ".pdf" or ".html" is a dot followed by
    dot-free characters. *)
Lemma document_suffix_shape (suf : string) :
  lower suf = ".pdf" \/ lower suf = ".html" ->
  exists ext, suf = String "." ext /\ mem "." ext = false.
Proof.
  intros H. destruct suf as [|c ext]; [destruct H; discriminate |].
  exists ext.
  assert (lower_ascii c = "."%char /\ mem "." (lower ext) = false) as [Hc Hext].
  { cbn [lower] in H. destruct H as [[= -> ->] | [= -> ->]]; now split. }
  rewrite mem_dot_lower in Hext. now rewrite (lower_ascii_dot c Hc).
Qed.

(** A name whose characters before its last dot are all dots has no
    extension for [splitext]. *)
Lemma splitext_dots (stem ext : string) :
  mem "/" (stem +:+ "." +:+ ext) = false ->
  mem "." ext = false ->
  forallb (fun c => Ascii.eqb c ".") (list_ascii_of_string stem) = true ->
  OsPath.splitext (stem +:+ "." +:+ ext) = (stem +:+ "." +:+ ext, "").
Proof.
  intros Hslash Hdot Hstem. unfold OsPath.splitext.
  rewrite (rfind_absent _ _ Hslash).
  change ("." +:+ ext) with (String "." ext).
  rewrite (rfind_last _ _ _ Hdot).
  destruct (-1 <? Z.of_nat (String.length stem))%Z; [| reflexivity].
  unfold OsPath.all_dots. rewrite Nat2Z.id.
  change (Z.to_nat (-1 + 1)) with 0%nat. cbn [slice_from].
  rewrite Nat.sub_0_r.
  now rewrite (slice_to_app stem (String "." ext)), Hstem.
Qed.

End IndexFacts.

(** X1: whatever the resolver returns is one colon-separated segment of
    one semicolon-separated part of the field; it ends in .pdf or .html
    (any letter case), holds neither separator, and is resolved to
    itself when given back to the resolver. *)
Theorem resolver_result_is_document_segment (s p : string) :
  parse_file_path_from_entry (Some s) = Some p ->
  names_document p = true /\
  mem ":" p = false /\ mem ";" p = false /\
  (exists part, In part (split ";" s) /\ In p (split ":" part)) /\
  parse_file_path_from_entry (Some p) = Some p.
Proof.
  intros Hparse.
  pose proof (ResolverFacts.parse_names _ _ Hparse) as Hname.
  unfold parse_file_path_from_entry in Hparse.
  destruct (truthy s); [| discriminate].
  destruct (IndexFacts.scan_parts_origin _ _ Hparse) as (part & Hpart & Hseg).
  assert (mem ":" p = false) as Hcolon.
  { pose proof (PathFacts.split_segments_clean ":" part) as Hall.
    rewrite List.Forall_forall in Hall. now apply Hall. }
  assert (mem ";" p = false) as Hsemi.
  { pose proof (PathFacts.split_segments_clean ";" s) as Hall.
    rewrite List.Forall_forall in Hall.
    pose proof (PathFacts.split_segments_chars ":" ";" part (Hall _ Hpart))
      as Hall'.
    rewrite List.Forall_forall in Hall'. now apply Hall'. }
  repeat split; try assumption.
  - now exists part.
  - unfold parse_file_path_from_entry.
    rewrite (ResolverFacts.names_document_nonempty _ Hname).
    rewrite (PyStrFacts.split_absent _ _ Hsemi). cbn [scan_parts].
    pose proof (ResolverFacts.mentions_around "" "" p Hname) as Hm.
    rewrite PyStrFacts.append_nil, PyStrFacts.append_empty_r in Hm.
    rewrite Hm, (PyStrFacts.split_absent _ _ Hcolon).
    unfold last_document_segment. cbn [rev app find]. now rewrite Hname.
Qed.

Lemma resolver_result_is_document_segment_witness :
  names_document "files/12/Hayes.PDF" = true /\
  parse_file_path_from_entry (Some "files/12/Hayes.PDF")
    = Some "files/12/Hayes.PDF".
Proof.
  destruct (resolver_result_is_document_segment
              "Full Text:files/12/Hayes.PDF:application/pdf;:x.html:HTML"
              "files/12/Hayes.PDF")
    as (Hname & _ & _ & _ & Hagain).
  - reflexivity.
  - split; [exact Hname | exact Hagain].
Defined.

(** X2: every key of the index is a bare file name: it holds no slash
    and ends in .pdf or .html (any letter case); every value is the
    non-empty citation key of an entry whose file field resolves to a
    path with that basename. *)
Theorem index_keys_are_document_basenames
    (entries : list (gmap string string)) (k v : string) :
  (create_pdf_to_citekey_map entries).1 !! k = Some v ->
  mem "/" k = false /\ names_document k = true /\ truthy v = true /\
  exists entry ff p,
    In entry entries /\ entry !! "ID" = Some v /\
    entry !! "file" = Some ff /\
    parse_file_path_from_entry (Some ff) = Some p /\
    OsPath.basename p = k.
Proof.
  unfold create_pdf_to_citekey_map. cbn [fst]. intros H.
  destruct (IndexFacts.fold_record_inv _ _ _ _ H)
    as [Hempty | (entry & Hin & Hv & Hid & ff & p & Hfile & Hp & <-)].
  - now rewrite lookup_empty in Hempty.
  - split; [apply PathFacts.basename_clean |].
    split; [apply IndexFacts.names_document_basename;
            now apply (ResolverFacts.parse_names (Some ff)) |].
    split; [exact Hv |]. now exists entry, ff, p.
Qed.

Lemma index_keys_are_document_basenames_witness :
  let hayes : gmap string string :=
    <["ID" := "hayes2002distributed"]>
      (<["file" := ":sub/dir/Hayes2002.PDF:PDF"]> ∅) in
  (create_pdf_to_citekey_map [hayes]).1 !! "Hayes2002.PDF"
    = Some "hayes2002distributed" /\
  mem "/" "Hayes2002.PDF" = false /\ names_document "Hayes2002.PDF" = true.
Proof.
  intros hayes.
  destruct (index_keys_are_document_basenames [hayes] "Hayes2002.PDF"
              "hayes2002distributed")
    as (Hslash & Hname & _).
  - reflexivity.
  - split; [reflexivity | split; [exact Hslash | exact Hname]].
Defined.

(** X3: for a file name the scan accepts (it ends in .pdf or .html in any
    letter case, and holds no slash), the fallback key is the name
    without that suffix; only when nothing but dots precedes the suffix
    (as in ".pdf") is the key the whole name. *)
Theorem scanned_name_stem (pdf_file : string) :
  names_document pdf_file = true -> mem "/" pdf_file = false ->
  exists stem suffix,
    pdf_file = stem +:+ suffix /\
    (lower suffix = ".pdf" \/ lower suffix = ".html") /\
    (OsPath.splitext pdf_file).1 =
      if forallb (fun c => Ascii.eqb c ".") (list_ascii_of_string stem)
      then pdf_file else stem.
Proof.
  intros Hname Hslash.
  assert (exists suf, (suf = ".pdf" \/ suf = ".html") /\
                      endswith (lower pdf_file) suf = true)
    as (suf & Hsuf & Hend).
  { unfold names_document, endswith_any in Hname. cbn [existsb] in Hname.
    rewrite orb_false_r in Hname.
    apply orb_true_iff in Hname as [H | H]; eauto. }
  apply PyStrFacts.endswith_inv in Hend as [pre Hlow].
  apply IndexFacts.lower_app_inv in Hlow as (stem & suffix & -> & _ & Hlsuf).
  assert (lower suffix = ".pdf" \/ lower suffix = ".html") as Hshape
    by (rewrite Hlsuf; exact Hsuf).
  destruct (IndexFacts.document_suffix_shape _ Hshape) as (ext & -> & Hext).
  exists stem, (String "." ext). split; [reflexivity |].
  split; [exact Hshape |].
  change (String "." ext) with ("." +:+ ext) in *.
  destruct (forallb _ (list_ascii_of_string stem)) eqn:Hdots.
  - now rewrite IndexFacts.splitext_dots.
  - now rewrite OsPathFacts.splitext_stem.
Qed.

Lemma scanned_name_stem_witness :
  exists stem suffix,
    "Hayes.2002.PDF" = stem +:+ suffix /\
    (lower suffix = ".pdf" \/ lower suffix = ".html") /\
    (OsPath.splitext "Hayes.2002.PDF").1 =
      if forallb (fun c => Ascii.eqb c ".") (list_ascii_of_string stem)
      then "Hayes.2002.PDF" else stem.
Proof.
  apply (scanned_name_stem "Hayes.2002.PDF"); reflexivity.
Defined.

(* --------------------------------------------------------------------- *)
(* How one paper can end                                                 *)
(* --------------------------------------------------------------------- *)
Module PaperFacts.
Import PyStrFacts RunRules LoopFacts.

Lemma snoc_snoc {A} (l : list A) (a b : A) : (l ++ [a]) ++ [b] = l ++ [a; b].
Proof. now rewrite <- List.app_assoc. Qed.

(** The output ends with the two lines of the handler. *)
Ltac close_failure :=
  match goal with
  | |- context [error_report ?f ?e] =>
      exists e; eexists; cbn [failure_lines];
      rewrite (snoc_snoc _ (error_report f e) _);
      f_equal; rewrite <- ?List.app_assoc; reflexivity
  end.

(** The same, once the exception is known. *)
Ltac close_tail :=
  eexists; cbn [failure_lines];
  match goal with
  | |- (?l ++ [?a]) ++ [?b] = _ => rewrite (snoc_snoc l a b)
  end;
  f_equal; rewrite <- ?List.app_assoc; reflexivity.

(** A list that ends with the given element. *)
Ltac close_snoc :=
  eexists; f_equal; rewrite <- ?List.app_assoc; reflexivity.

Ltac close_contents :=
  unfold contents, summary_record; world_simpl; cbn [from_option id];
  rewrite ?append_assoc; reflexivity.

End PaperFacts.

Import PaperFacts.

(** X4: when the upload of a paper fails, the iteration has made that one
    call and printed the error; the summaries file, both directories, the
    files on the service and the clock are as before, and the loop goes
    on without a pause. *)
Theorem failed_upload_changes_nothing_else
    (env : Env) (master_prompt : string)
    (pdf_citekey_map : gmap string string)
    (siunitx_manual_file : option File) (pdf_file : string) (w : World)
    (e : exn) :
  upload_fault env (OsPath.join PAPERS_TO_READ_DIR pdf_file) = Some e ->
  let run :=
    process_paper env master_prompt pdf_citekey_map siunitx_manual_file
      pdf_file w in
  run.1 = inr tt /\
  calls run.2 = calls w ++
    [UploadFile Paper (OsPath.join PAPERS_TO_READ_DIR pdf_file) pdf_file] /\
  summaries run.2 = summaries w /\
  papers_to_read run.2 = papers_to_read w /\
  read_papers run.2 = read_papers w /\
  remote run.2 = remote w /\ next_file run.2 = next_file w /\
  slept run.2 = slept w /\
  exists out, stdout run.2 = (stdout w ++ out) ++ failure_lines pdf_file e.
Proof.
  intros Hup run. subst run.
  change (Run.post
            (process_paper env master_prompt pdf_citekey_map
               siunitx_manual_file pdf_file) w
            (fun r w' =>
               r = inr tt /\
               calls w' = calls w ++
                 [UploadFile Paper (OsPath.join PAPERS_TO_READ_DIR pdf_file)
                    pdf_file] /\
               summaries w' = summaries w /\
               papers_to_read w' = papers_to_read w /\
               read_papers w' = read_papers w /\
               remote w' = remote w /\ next_file w' = next_file w /\
               slept w' = slept w /\
               exists out,
                 stdout w' = (stdout w ++ out) ++ failure_lines pdf_file e)).
  RunRules.run; LoopFacts.world_simpl; try congruence.
  all: simplify_eq; repeat split; close_tail.
Qed.

Lemma failed_upload_changes_nothing_else_witness :
  let run :=
    process_paper
      (staged_env false (always_fails "503 unavailable") (answers "A summary.")
         no_fault no_fault no_fault)
      "Summarise." ∅ None "a.pdf" (fresh_world {["a.pdf"]}) in
  calls run.2 = [UploadFile Paper "papers_to_read/a.pdf" "a.pdf"] /\
  summaries run.2 = None /\ papers_to_read run.2 = Some {["a.pdf"]}.
Proof.
  intros run.
  destruct (failed_upload_changes_nothing_else
              (staged_env false (always_fails "503 unavailable")
                 (answers "A summary.") no_fault no_fault no_fault)
              "Summarise." ∅ None "a.pdf" (fresh_world {["a.pdf"]})
              (OtherError "503 unavailable"))
    as (_ & Hcalls & Hsummaries & Hpending & _).
  - reflexivity.
  - split; [exact Hcalls | split; [exact Hsummaries | exact Hpending]].
Defined.

(** X5: once its upload has succeeded, an iteration ends in one of two
    ways.  Either it completes: its last call deletes the uploaded
    paper, the handle is gone from the service, and the loop pauses for
    2 seconds.  Or it fails: the handler's two lines end the output,
    there is no pause, and the uploaded paper is still alive on the
    service, because the only delete is the last step of the try
    block. *)
Theorem paper_handle_deleted_only_on_completion
    (env : Env) (master_prompt : string)
    (pdf_citekey_map : gmap string string)
    (siunitx_manual_file : option File) (pdf_file : string) (w : World) :
  upload_fault env (OsPath.join PAPERS_TO_READ_DIR pdf_file) = None ->
  let w' :=
    (process_paper env master_prompt pdf_citekey_map siunitx_manual_file
       pdf_file w).2 in
  let n := name (fresh_file (next_file w) pdf_file) in
  (slept w' = slept w + 2 /\
   remote w' = ({[n]} ∪ remote w) ∖ {[n]} /\
   (exists more, calls w' = (calls w ++ more) ++ [DeleteFile Paper n]) /\
   (exists out,
      stdout w' =
        (stdout w ++ out) ++ ["  - Deleting uploaded paper from service..."]))
  \/
  (slept w' = slept w /\
   remote w' = {[n]} ∪ remote w /\
   exists e out, stdout w' = (stdout w ++ out) ++ failure_lines pdf_file e).
Proof.
  intros Hup w' n. subst w' n.
  change (Run.post
            (process_paper env master_prompt pdf_citekey_map
               siunitx_manual_file pdf_file) w
            (fun _ w' =>
               let n := name (fresh_file (next_file w) pdf_file) in
               (slept w' = slept w + 2 /\
                remote w' = ({[n]} ∪ remote w) ∖ {[n]} /\
                (exists more,
                   calls w' = (calls w ++ more) ++ [DeleteFile Paper n]) /\
                (exists out,
                   stdout w' =
                     (stdout w ++ out)
                       ++ ["  - Deleting uploaded paper from service..."]))
               \/
               (slept w' = slept w /\
                remote w' = {[n]} ∪ remote w /\
                exists e out,
                  stdout w' = (stdout w ++ out) ++ failure_lines pdf_file e))).
  RunRules.run; LoopFacts.world_simpl; try congruence; cbv zeta.
  all: first
    [ right; split; [reflexivity |]; split; [reflexivity |]; close_failure
    | left; split; [reflexivity |]; split; [reflexivity |];
      split; close_snoc ].
Qed.

Lemma paper_handle_deleted_only_on_completion_witness :
  let w' :=
    (process_paper
       (staged_env false no_fault (answers "A summary.") no_fault
          (always_fails "disk full") no_fault)
       "Summarise." ∅ None "a.pdf" (fresh_world {["a.pdf"]})).2 in
  slept w' = 0 /\ "files/0" ∈ remote w'.
Proof.
  intros w'.
  destruct (paper_handle_deleted_only_on_completion
              (staged_env false no_fault (answers "A summary.") no_fault
                 (always_fails "disk full") no_fault)
              "Summarise." ∅ None "a.pdf" (fresh_world {["a.pdf"]}))
    as [(Hslept & _) | (Hslept & Hremote & _)].
  - reflexivity.
  - discriminate Hslept.
  - split; [exact Hslept |]. subst w'. rewrite Hremote. set_solver.
Defined.

(** X6: when the service answers but the text of the answer cannot be
    read, the section header of the paper has already been written: the
    summaries file gains the header and nothing after it.  The paper
    stays in the input directory, its upload stays on the service, and
    the error is reported. *)
Theorem unreadable_answer_leaves_bare_header
    (env : Env) (master_prompt : string)
    (pdf_citekey_map : gmap string string)
    (siunitx_manual_file : option File) (pdf_file : string) (w : World)
    (response : Response) (e : exn) :
  upload_fault env (OsPath.join PAPERS_TO_READ_DIR pdf_file) = None ->
  generate env
    (prompt_parts master_prompt siunitx_manual_file
       (fresh_file (next_file w) pdf_file)) = inr response ->
  text response = inl e ->
  open_fault env pdf_file = None ->
  let w' :=
    (process_paper env master_prompt pdf_citekey_map siunitx_manual_file
       pdf_file w).2 in
  summaries w' =
    Some (contents w
            +:+ section_header (resolve_citekey pdf_citekey_map pdf_file)) /\
  papers_to_read w' = papers_to_read w /\
  read_papers w' = read_papers w /\
  remote w' = {[name (fresh_file (next_file w) pdf_file)]} ∪ remote w /\
  exists out, stdout w' = (stdout w ++ out) ++ failure_lines pdf_file e.
Proof.
  intros Hup Hgen Htext Hopen w'. subst w'.
  change (Run.post
            (process_paper env master_prompt pdf_citekey_map
               siunitx_manual_file pdf_file) w
            (fun _ w' =>
               summaries w' =
                 Some (contents w
                         +:+ section_header
                               (resolve_citekey pdf_citekey_map pdf_file)) /\
               papers_to_read w' = papers_to_read w /\
               read_papers w' = read_papers w /\
               remote w' =
                 {[name (fresh_file (next_file w) pdf_file)]} ∪ remote w /\
               exists out,
                 stdout w' = (stdout w ++ out) ++ failure_lines pdf_file e)).
  RunRules.run; LoopFacts.world_simpl; try congruence.
  all: simplify_eq; rewrite Htext in *; simplify_eq; repeat split; close_tail.
Qed.

Lemma unreadable_answer_leaves_bare_header_witness :
  let w' :=
    (process_paper
       (staged_env false no_fault (blocked "response was blocked") no_fault
          no_fault no_fault)
       "Summarise." ∅ None "a.pdf" (fresh_world {["a.pdf"]})).2 in
  summaries w' = Some ("" +:+ section_header "a") /\
  papers_to_read w' = Some {["a.pdf"]}.
Proof.
  intros w'.
  destruct (unreadable_answer_leaves_bare_header
              (staged_env false no_fault (blocked "response was blocked")
                 no_fault no_fault no_fault)
              "Summarise." ∅ None "a.pdf" (fresh_world {["a.pdf"]})
              {| text := inl (OtherError "response was blocked") |}
              (OtherError "response was blocked"))
    as (Hsummaries & Hpending & _); try reflexivity.
  split; [exact Hsummaries | exact Hpending].
Defined.

(** X7: when the summary has been saved and moving the paper to the
    archive fails, nothing is rolled back: the record stays in the
    summaries file, the paper stays in the input directory (so a later
    run processes it again and appends a second record), its upload
    stays on the service, and the error is reported. *)
Theorem failed_archival_keeps_summary
    (env : Env) (master_prompt : string)
    (pdf_citekey_map : gmap string string)
    (siunitx_manual_file : option File) (pdf_file summary : string)
    (w : World) (response : Response) (e : exn) :
  upload_fault env (OsPath.join PAPERS_TO_READ_DIR pdf_file) = None ->
  generate env
    (prompt_parts master_prompt siunitx_manual_file
       (fresh_file (next_file w) pdf_file)) = inr response ->
  text response = inr summary ->
  open_fault env pdf_file = None ->
  move_fault env (OsPath.join PAPERS_TO_READ_DIR pdf_file) = Some e ->
  let w' :=
    (process_paper env master_prompt pdf_citekey_map siunitx_manual_file
       pdf_file w).2 in
  summaries w' =
    Some (contents w
            +:+ summary_record (resolve_citekey pdf_citekey_map pdf_file)
                  summary) /\
  papers_to_read w' = papers_to_read w /\
  read_papers w' = read_papers w /\
  remote w' = {[name (fresh_file (next_file w) pdf_file)]} ∪ remote w /\
  exists out, stdout w' = (stdout w ++ out) ++ failure_lines pdf_file e.
Proof.
  intros Hup Hgen Htext Hopen Hmove w'. subst w'.
  change (Run.post
            (process_paper env master_prompt pdf_citekey_map
               siunitx_manual_file pdf_file) w
            (fun _ w' =>
               summaries w' =
                 Some (contents w
                         +:+ summary_record
                               (resolve_citekey pdf_citekey_map pdf_file)
                               summary) /\
               papers_to_read w' = papers_to_read w /\
               read_papers w' = read_papers w /\
               remote w' =
                 {[name (fresh_file (next_file w) pdf_file)]} ∪ remote w /\
               exists out,
                 stdout w' = (stdout w ++ out) ++ failure_lines pdf_file e)).
  RunRules.run; LoopFacts.world_simpl; try congruence.
  all: simplify_eq; rewrite Htext in *; simplify_eq; split;
    [ f_equal; close_contents
    | repeat split; close_tail ].
Qed.

Lemma failed_archival_keeps_summary_witness :
  let w' :=
    (process_paper
       (staged_env false no_fault (answers "A summary.") no_fault
          (always_fails "read-only file system") no_fault)
       "Summarise." ∅ None "a.pdf" (fresh_world {["a.pdf"]})).2 in
  summaries w' = Some ("" +:+ summary_record "a" "A summary.") /\
  papers_to_read w' = Some {["a.pdf"]} /\ read_papers w' = Some ∅.
Proof.
  intros w'.
  destruct (failed_archival_keeps_summary
              (staged_env false no_fault (answers "A summary.") no_fault
                 (always_fails "read-only file system") no_fault)
              "Summarise." ∅ None "a.pdf" "A summary."
              (fresh_world {["a.pdf"]})
              {| text := inr "A summary." |}
              (OtherError "read-only file system"))
    as (Hsummaries & Hpending & Harchive & _); try reflexivity.
  split; [exact Hsummaries | split; [exact Hpending | exact Harchive]].
Defined.

(** X8: when everything up to the archive has worked and only the remote
    delete of the paper fails, the paper is saved and archived all the
    same, but the iteration is reported as an error for that paper, the
    upload stays on the service, and the pause is skipped. *)
Theorem failed_remote_delete_is_reported_as_paper_error
    (env : Env) (master_prompt : string)
    (pdf_citekey_map : gmap string string)
    (siunitx_manual_file : option File) (pdf_file summary : string)
    (w : World) (pending archive : gset string) (e : exn) :
  cooperative env pdf_file summary ->
  papers_to_read w = Some pending -> read_papers w = Some archive ->
  pdf_file ∈ pending ->
  delete_fault env (name (fresh_file (next_file w) pdf_file)) = Some e ->
  let w' :=
    (process_paper env master_prompt pdf_citekey_map siunitx_manual_file
       pdf_file w).2 in
  summaries w' =
    Some (contents w
            +:+ summary_record (resolve_citekey pdf_citekey_map pdf_file)
                  summary) /\
  papers_to_read w' = Some (pending ∖ {[pdf_file]}) /\
  read_papers w' = Some ({[pdf_file]} ∪ archive) /\
  remote w' = {[name (fresh_file (next_file w) pdf_file)]} ∪ remote w /\
  slept w' = slept w /\
  exists out, stdout w' = (stdout w ++ out) ++ failure_lines pdf_file e.
Proof.
  intros (Hup & Hgen & Hopen & Hmove) Hp Ha Hin Hdelete w'. subst w'.
  destruct (LoopFacts.prompt_parts_last master_prompt siunitx_manual_file
              (fresh_file (next_file w) pdf_file)) as [rest Hl].
  pose proof (Hgen _ _ _ Hl eq_refl) as Hg.
  change (Run.post
            (process_paper env master_prompt pdf_citekey_map
               siunitx_manual_file pdf_file) w
            (fun _ w' =>
               summaries w' =
                 Some (contents w
                         +:+ summary_record
                               (resolve_citekey pdf_citekey_map pdf_file)
                               summary) /\
               papers_to_read w' = Some (pending ∖ {[pdf_file]}) /\
               read_papers w' = Some ({[pdf_file]} ∪ archive) /\
               remote w' =
                 {[name (fresh_file (next_file w) pdf_file)]} ∪ remote w /\
               slept w' = slept w /\
               exists out,
                 stdout w' = (stdout w ++ out) ++ failure_lines pdf_file e)).
  RunRules.run; LoopFacts.world_simpl; LoopFacts.decide_hyps; try congruence.
  all: rewrite Hg in *; simplify_eq; cbn [text] in *; simplify_eq.
  all: split;
    [ f_equal; close_contents
    | repeat split; close_tail ].
Qed.

Lemma failed_remote_delete_is_reported_as_paper_error_witness :
  let w' :=
    (process_paper
       (staged_env false no_fault (answers "A summary.") no_fault no_fault
          (always_fails "404 not found"))
       "Summarise." ∅ None "a.pdf" (fresh_world {["a.pdf"]})).2 in
  read_papers w' = Some ({["a.pdf"]} ∪ ∅) /\ slept w' = 0 /\
  error_report "a.pdf" (OtherError "404 not found") ∈ stdout w'.
Proof.
  intros w'.
  destruct (failed_remote_delete_is_reported_as_paper_error
              (staged_env false no_fault (answers "A summary.") no_fault
                 no_fault (always_fails "404 not found"))
              "Summarise." ∅ None "a.pdf" "A summary."
              (fresh_world {["a.pdf"]}) {["a.pdf"]} ∅
              (OtherError "404 not found"))
    as (_ & _ & Harchive & _ & Hslept & out & Hout).
  - repeat split.
  - reflexivity.
  - reflexivity.
  - set_solver.
  - reflexivity.
  - split; [exact Harchive | split; [exact Hslept |]].
    subst w'. rewrite Hout. cbn [failure_lines]. set_solver.
Defined.

(* --------------------------------------------------------------------- *)
(* Whole batches                                                         *)
(* --------------------------------------------------------------------- *)
Module BatchFacts.
Import PyStrFacts RunRules LoopFacts.

Lemma join_empty_cons (x : string) (l : list string) :
  join "" (x :: l) = x +:+ join "" l.
Proof. destruct l; [cbn; now rewrite append_empty_r | reflexivity]. Qed.

Section Batch.
Context (env : Env) (master_prompt : string)
        (pdf_citekey_map : gmap string string)
        (siunitx_manual_file : option File).

(** Nothing is lost in one iteration: the paper either stays in the
    input directory or is in the archive, and the summaries only grow. *)
Lemma process_paper_conserves (f : string) (w : World) :
  post (process_paper env master_prompt pdf_citekey_map siunitx_manual_file f)
    w (fun _ w' =>
      (exists more, contents w' = contents w +:+ more) /\
      forall pending archive,
        papers_to_read w = Some pending -> read_papers w = Some archive ->
        exists pending' archive',
          papers_to_read w' = Some pending' /\
          read_papers w' = Some archive' /\
          pending' ⊆ pending /\ archive ⊆ archive' /\
          pending' ∪ archive' = pending ∪ archive /\
          (forall g, g ∈ pending -> g <> f -> g ∈ pending')).
Proof.
  run; (split; [solve_contents |]).
  all: intros pending archive Hp Ha; world_simpl; decide_hyps;
    first [ congruence
          | simplify_eq; eexists _, _;
            split; [eassumption || reflexivity |];
            split; [eassumption || reflexivity |];
            split; [set_solver |]; split; [set_solver |];
            split; [| set_solver];
            first [ reflexivity
                  | apply set_eq; intros x;
                    destruct (decide (x = f)); set_solver ] ].
Qed.

Lemma process_all_conserves (fs : list string) (w : World) :
  post (process_all env master_prompt pdf_citekey_map siunitx_manual_file fs)
    w (fun r w' =>
      r = inr tt /\
      (exists more, contents w' = contents w +:+ more) /\
      forall pending archive,
        papers_to_read w = Some pending -> read_papers w = Some archive ->
        exists pending' archive',
          papers_to_read w' = Some pending' /\
          read_papers w' = Some archive' /\
          pending' ⊆ pending /\ archive ⊆ archive' /\
          pending' ∪ archive' = pending ∪ archive /\
          (forall g, g ∈ pending -> g ∉ fs -> g ∈ pending')).
Proof.
  revert w. induction fs as [|f fs IH]; intros w.
  - unfold post. cbn. split; [reflexivity |]. split.
    + exists "". now rewrite append_empty_r.
    + intros pending archive Hp Ha. exists pending, archive.
      repeat split; try assumption; set_solver.
  - unfold post. rewrite process_all_cons.
    pose proof (process_paper_conserves f w) as [[m1 Hm1] Hd1].
    pose proof (IH (process_paper env master_prompt pdf_citekey_map
                      siunitx_manual_file f w).2) as (Hr & [m2 Hm2] & Hd2).
    split; [exact Hr |]. split.
    + exists (m1 +:+ m2). now rewrite Hm2, Hm1, append_assoc.
    + intros pending archive Hp Ha.
      destruct (Hd1 _ _ Hp Ha) as (p1 & a1 & Hp1 & Ha1 & ? & ? & ? & Hk1).
      destruct (Hd2 _ _ Hp1 Ha1) as (p2 & a2 & Hp2 & Ha2 & ? & ? & ? & Hk2).
      exists p2, a2.
      split; [assumption |]. split; [assumption |].
      split; [set_solver |]. split; [set_solver |].
      split; [congruence |].
      intros g Hg Hnot. apply Hk2; [apply Hk1 |]; set_solver.
Qed.

End Batch.

End BatchFacts.

(** X9: when the environment cooperates for every paper of a duplicate-free
    list of papers that are in the input directory, the loop moves
    exactly these papers to the archive and appends their records to
    the summaries file in the order of the list, each under the key the
    index resolves for it. *)
Theorem cooperative_batch_saves_in_order
    (env : Env) (master_prompt : string)
    (pdf_citekey_map : gmap string string)
    (siunitx_manual_file : option File)
    (pdf_files : list string) (summary_of : string -> string) (w : World)
    (pending archive : gset string) :
  papers_to_read w = Some pending -> read_papers w = Some archive ->
  NoDup pdf_files ->
  (forall f, f ∈ pdf_files -> f ∈ pending) ->
  (forall f, f ∈ pdf_files -> cooperative env f (summary_of f)) ->
  let w' :=
    (process_all env master_prompt pdf_citekey_map siunitx_manual_file
       pdf_files w).2 in
  papers_to_read w' = Some (pending ∖ list_to_set pdf_files) /\
  read_papers w' = Some (list_to_set pdf_files ∪ archive) /\
  contents w' =
    contents w +:+
    join "" (map (fun f =>
                    summary_record (resolve_citekey pdf_citekey_map f)
                                   (summary_of f)) pdf_files).
Proof.
  revert w pending archive.
  induction pdf_files as [|f fs IH]; intros w pending archive Hp Ha Hnodup
    Hin Hcoop w'; subst w'.
  - cbn [process_all ret snd map join list_to_set].
    rewrite Hp, Ha, PyStrFacts.append_empty_r.
    repeat split; f_equal; set_solver.
  - rewrite LoopFacts.process_all_cons.
    apply NoDup_cons in Hnodup as [Hfresh Hnodup].
    pose proof (LoopFacts.process_paper_cooperative env master_prompt
                  pdf_citekey_map siunitx_manual_file f (summary_of f) w
                  pending archive
                  (Hcoop f ltac:(set_solver)) Hp Ha (Hin f ltac:(set_solver)))
      as (Hp1 & Ha1 & Hs1).
    unfold post in Hp1, Ha1, Hs1.
    set (w1 := (process_paper env master_prompt pdf_citekey_map
                  siunitx_manual_file f w).2) in *.
    destruct (IH w1 _ _ Hp1 Ha1 Hnodup) as (Hp2 & Ha2 & Hc2).
    + intros g Hg. apply elem_of_difference. split; [apply Hin; set_solver |].
      set_solver.
    + intros g Hg. apply Hcoop. set_solver.
    + rewrite Hp2, Ha2, Hc2. repeat split.
      * f_equal. set_solver.
      * f_equal. set_solver.
      * cbn [map]. rewrite BatchFacts.join_empty_cons.
        unfold contents at 1. rewrite Hs1. cbn [from_option id].
        unfold summary_record. now rewrite !PyStrFacts.append_assoc.
Qed.

Lemma cooperative_batch_saves_in_order_witness :
  let w' :=
    (process_all
       (staged_env false no_fault (answers "A summary.") no_fault no_fault
          no_fault)
       "Summarise." {["b.pdf" := "smith2020"]} None ["a.pdf"; "b.pdf"]
       (fresh_world ({["a.pdf"]} ∪ {["b.pdf"]} ∪ {["notes.txt"]}))).2 in
  contents w' =
    "" +:+ join "" [summary_record "a" "A summary.";
                    summary_record "smith2020" "A summary."].
Proof.
  intros w'.
  destruct (cooperative_batch_saves_in_order
              (staged_env false no_fault (answers "A summary.") no_fault
                 no_fault no_fault)
              "Summarise." {["b.pdf" := "smith2020"]} None
              ["a.pdf"; "b.pdf"] (fun _ => "A summary.")
              (fresh_world ({["a.pdf"]} ∪ {["b.pdf"]} ∪ {["notes.txt"]}))
              ({["a.pdf"]} ∪ {["b.pdf"]} ∪ {["notes.txt"]}) ∅)
    as (_ & _ & Hcontents).
  - reflexivity.
  - reflexivity.
  - repeat constructor; set_solver.
  - set_solver.
  - intros f _. repeat split.
  - exact Hcontents.
Defined.

(* --------------------------------------------------------------------- *)
(* More on the whole run                                                 *)
(* --------------------------------------------------------------------- *)
Module MainMore.
Import PyStrFacts RunRules LoopFacts.

(** As [MainFacts.step_main], with the loop taken through its
    conservation lemma. *)
Ltac step_keeping :=
  lazymatch goal with
  | |- post (process_all _ _ _ _ _) _ _ =>
      eapply post_wand;
      [ apply BatchFacts.process_all_conserves
      | let r := fresh "r" in
        let w := fresh "w" in
        let Hmore := fresh "Hmore" in
        let Hdirs := fresh "Hdirs" in
        intros r w (-> & Hmore & Hdirs); cbv beta iota ]
  | |- _ => MainFacts.step_main
  end.

(** Names the scan rejects are not in its result. *)
Lemma rejected_not_scanned (names : list string) (g : string) :
  names_document g = false -> g ∉ List.filter names_document names.
Proof.
  intros Hg Hin. apply list_elem_of_In, List.filter_In in Hin as [_ Hin].
  congruence.
Qed.

End MainMore.

(** X10: whichever of its calls fails, [main] conserves the names of
    the files in its two directories and only appends to the summaries
    file.  When both directories exist at the start, afterwards every
    name that left the input directory is in the archive; no name left
    the archive; the two directories together hold exactly the names
    they held; names that do not end in .pdf or .html are still in the
    input directory; and the summaries file holds what it held, followed
    by what was added.  The directories are sets of names: a paper
    archived under a name the archive already holds replaces that file,
    as [shutil.move] does, and the two count here as one name. *)
Theorem main_conserves_file_names
    (env : Env) (w : World) (pending archive : gset string) :
  papers_to_read w = Some pending -> read_papers w = Some archive ->
  let w' := (main env w).2 in
  (exists pending' archive',
     papers_to_read w' = Some pending' /\ read_papers w' = Some archive' /\
     pending' ⊆ pending /\ archive ⊆ archive' /\
     pending' ∪ archive' = pending ∪ archive /\
     (forall g, g ∈ pending -> names_document g = false -> g ∈ pending')) /\
  exists more, contents w' = contents w +:+ more.
Proof.
  intros Hpending Harchive.
  change (Run.post (main env) w (fun _ w' =>
            (exists pending' archive',
               papers_to_read w' = Some pending' /\
               read_papers w' = Some archive' /\
               pending' ⊆ pending /\ archive ⊆ archive' /\
               pending' ∪ archive' = pending ∪ archive /\
               (forall g, g ∈ pending -> names_document g = false ->
                          g ∈ pending')) /\
            exists more, contents w' = contents w +:+ more)).
  repeat MainMore.step_keeping; LoopFacts.world_simpl.
  all: rewrite ?Hpending, ?Harchive in *; cbn [from_option id] in *.
  all: split;
    [ | unfold contents in *; LoopFacts.world_simpl;
        first [ exists ""; now rewrite PyStrFacts.append_empty_r
              | eassumption ] ].
  all: try (eexists _, _; split; [reflexivity |]; split; [reflexivity |];
            repeat split; set_solver).
  all: match goal with
       | Hd : forall pending archive, _ -> _ -> _ |- _ =>
           destruct (Hd _ _ eq_refl eq_refl)
             as (p' & a' & Hp' & Ha' & Hsub & Hsup & Heq & Hkeep)
       end.
  all: exists p', a'; split; [assumption |]; split; [assumption |];
    split; [assumption |]; split; [assumption |]; split; [assumption |];
    intros other Hother Hname; apply Hkeep; [exact Hother |];
    match goal with
    | H : List.filter _ _ = _ |- _ => rewrite <- H
    end;
    now apply MainMore.rejected_not_scanned.
Qed.

Lemma main_conserves_file_names_witness :
  let w' := (main (quiet_env [])
               (fresh_world ({["a.pdf"]} ∪ {["notes.txt"]}))).2 in
  exists pending' archive',
    papers_to_read w' = Some pending' /\ read_papers w' = Some archive' /\
    "notes.txt" ∈ pending' /\
    pending' ∪ archive' = {["a.pdf"]} ∪ {["notes.txt"]} ∪ ∅.
Proof.
  intros w'.
  destruct (main_conserves_file_names (quiet_env [])
              (fresh_world ({["a.pdf"]} ∪ {["notes.txt"]}))
              ({["a.pdf"]} ∪ {["notes.txt"]}) ∅ eq_refl eq_refl)
    as ((pending' & archive' & Hp & Ha & _ & _ & Hunion & Hkeep) & _).
  exists pending', archive'.
  split; [exact Hp |]. split; [exact Ha |].
  split; [apply Hkeep; [set_solver | reflexivity] | exact Hunion].
Defined.

Module MainEdges.
Import PyStrFacts RunRules LoopFacts.

Ltac open_batch :=
  try match goal with
      | H : advances _ _ _ _ _ |- _ =>
          destruct H as [[out Hout] _ (more & Hcalls & Hpapers) _];
          world_simpl; rewrite ?Hcalls, ?Hout
      end.

(** When the upload of the manual fails, [main] warns and works without
    the manual. *)
Lemma main_without_manual (env : Env) (w : World) (prompt : string)
    (entries : list (gmap string string)) (e : exn) :
  master_prompt_file env = inr prompt ->
  bibtex_file env = inr entries ->
  manual_exists env = true ->
  upload_fault env SIUNITX_MANUAL = Some e ->
  post (main env) w (fun _ w' =>
    manual_upload_warning e ∈ stdout w' /\
    exists papers,
      calls w' =
        (calls w ++ [UploadFile Manual SIUNITX_MANUAL "siunitx.pdf"])
          ++ papers /\
      Forall (paper_call prompt None) papers).
Proof.
  intros Hprompt Hbib Hexists Hupload.
  MainFacts.run_main; world_simpl; try congruence; open_batch; simplify_eq.
  all: split; [unfold manual_upload_warning; set_solver |].
  all: first [ exists []; split; [now rewrite List.app_nil_r | constructor]
             | eexists; split; [reflexivity | assumption] ].
Qed.

(** When the last delete fails, the exception leaves [main]. *)
Lemma main_final_delete_escapes (env : Env) (w : World)
    (prompt : string) (entries : list (gmap string string))
    (f : string) (fs : list string) (e : exn) :
  master_prompt_file env = inr prompt ->
  bibtex_file env = inr entries ->
  manual_exists env = true ->
  upload_fault env SIUNITX_MANUAL = None ->
  listdir_fault env = None ->
  List.filter names_document (elements (default ∅ (papers_to_read w)))
    = f :: fs ->
  delete_fault env (name (fresh_file (next_file w) "siunitx.pdf")) = Some e ->
  post (main env) w (fun r w' =>
    r = inl e /\
    (exists out, stdout w' = (stdout w ++ out) ++ [DELETING_MANUAL]) /\
    exists more,
      calls w' =
        (calls w ++ more)
          ++ [DeleteFile Manual (name (fresh_file (next_file w) "siunitx.pdf"))]).
Proof.
  intros Hprompt Hbib Hexists Hupload Hlist Hscan Hdelete.
  MainFacts.run_main; world_simpl; try congruence; open_batch;
    change (OsPath.basename SIUNITX_MANUAL) with "siunitx.pdf" in *;
    try congruence; simplify_eq.
  all: split; [reflexivity |]; split;
    eexists; f_equal; rewrite <- ?List.app_assoc; reflexivity.
Qed.

(** Errors of the setup that are not "file not found" leave [main]. *)
Lemma main_setup_error_escapes (env : Env) (w : World) (msg : string) :
  master_prompt_file env = inl (OtherError msg) \/
  ((exists prompt, master_prompt_file env = inr prompt) /\
   (exists entries, bibtex_file env = inr entries) /\
   listdir_fault env = Some (OtherError msg)) ->
  post (main env) w (fun r w' =>
    r = inl (OtherError msg) /\
    summaries w' = summaries w /\
    exists new, calls w' = calls w ++ new /\
                Forall (fun c => touches_paper c = false) new).
Proof.
  intros [Hprompt | ([prompt Hprompt] & [entries Hbib] & Hlist)].
  - MainFacts.run_main; world_simpl; try congruence; simplify_eq.
    all: repeat split; exists []; split;
      [now rewrite List.app_nil_r | constructor].
  - MainFacts.run_main; world_simpl; try congruence; simplify_eq.
    all: repeat split;
      first [ exists []; split; [now rewrite List.app_nil_r | constructor]
            | eexists; split; [reflexivity | repeat constructor] ].
Qed.

End MainEdges.



(** X12: the delete of the manual at the end of [main] is outside every
    try block.  When the manual was uploaded, at least one paper was
    found, and that delete fails, the exception leaves [main]: the
    script ends with exit status 1, its last call is the failed delete,
    and its last line announces the delete; the closing "Pipeline
    Finished" line is not reached. *)
Theorem failed_manual_delete_ends_script_with_error
    (env : Env) (w : World) (prompt : string)
    (entries : list (gmap string string)) (f : string) (fs : list string)
    (e : exn) :
  has_credential env = true ->
  master_prompt_file env = inr prompt ->
  bibtex_file env = inr entries ->
  manual_exists env = true ->
  upload_fault env SIUNITX_MANUAL = None ->
  listdir_fault env = None ->
  List.filter names_document (elements (default ∅ (papers_to_read w)))
    = f :: fs ->
  delete_fault env (name (fresh_file (next_file w) "siunitx.pdf")) = Some e ->
  let status := (script env w).1 in
  let w' := (script env w).2 in
  status = 1 /\
  (exists out, stdout w' = (stdout w ++ out) ++ [DELETING_MANUAL]) /\
  exists more,
    calls w' =
      (calls w ++ more)
        ++ [DeleteFile Manual (name (fresh_file (next_file w) "siunitx.pdf"))].
Proof.
  intros Hkey Hprompt Hbib Hexists Hupload Hlist Hscan Hdelete status w'.
  subst status w'.
  rewrite (MainFacts.script_with_key _ _ Hkey). cbv zeta.
  pose proof (MainEdges.main_final_delete_escapes env
                (set_stdout (fun out => out ++
                    ["-> Configured Gemini API with key from environment variable."])
                   (log_call (Configure (default "" (GEMINI_API_KEY env))) w))
                prompt entries f fs e Hprompt Hbib Hexists Hupload Hlist
                Hscan Hdelete) as Hmain.
  unfold post in Hmain.
  destruct (main env _) as [r w2].
  cbn [fst snd stdout calls next_file set_stdout log_call] in *.
  destruct Hmain as (-> & [out Hout] & [more Hmore]).
  split; [reflexivity |]. split.
  - exists ("-> Configured Gemini API with key from environment variable."
              :: out).
    rewrite Hout. f_equal. now rewrite <- List.app_assoc.
  - exists (Configure (default "" (GEMINI_API_KEY env)) :: more).
    rewrite Hmore. f_equal. now rewrite <- List.app_assoc.
Qed.

Lemma failed_manual_delete_ends_script_with_error_witness :
  let run :=
    script (staged_env true no_fault (answers "A summary.") no_fault no_fault
              (delete_fails_for "files/0" "403 forbidden"))
           (fresh_world {["a.pdf"]}) in
  run.1 = 1 /\ last (stdout run.2) = Some DELETING_MANUAL.
Proof.
  intros run.
  destruct (failed_manual_delete_ends_script_with_error
              (staged_env true no_fault (answers "A summary.") no_fault
                 no_fault (delete_fails_for "files/0" "403 forbidden"))
              (fresh_world {["a.pdf"]}) "Summarise." [] "a.pdf" []
              (OtherError "403 forbidden"))
    as (Hstatus & [out Hout] & _); try reflexivity.
  split; [exact Hstatus |]. subst run. rewrite Hout. apply last_snoc.
Defined.

(** X13: a setup error that is not "file not found" is not handled: when
    reading the prompt file raises another error, or when listing the
    input directory does, the exception leaves [main] and the script
    ends with exit status 1, before any paper is touched. *)
Theorem other_setup_errors_end_script_with_error
    (env : Env) (w : World) (msg : string) :
  has_credential env = true ->
  master_prompt_file env = inl (OtherError msg) \/
  ((exists prompt, master_prompt_file env = inr prompt) /\
   (exists entries, bibtex_file env = inr entries) /\
   listdir_fault env = Some (OtherError msg)) ->
  let status := (script env w).1 in
  let w' := (script env w).2 in
  status = 1 /\
  summaries w' = summaries w /\
  exists new, calls w' = calls w ++ new /\
              Forall (fun c => touches_paper c = false) new.
Proof.
  intros Hkey Herror status w'. subst status w'.
  rewrite (MainFacts.script_with_key _ _ Hkey). cbv zeta.
  pose proof (MainEdges.main_setup_error_escapes env
                (set_stdout (fun out => out ++
                    ["-> Configured Gemini API with key from environment variable."])
                   (log_call (Configure (default "" (GEMINI_API_KEY env))) w))
                msg Herror) as Hmain.
  unfold post in Hmain.
  destruct (main env _) as [r w2].
  cbn [fst snd stdout calls summaries set_stdout log_call] in *.
  destruct Hmain as (-> & Hsummaries & new & Hcalls & Hnew).
  split; [reflexivity |]. split; [exact Hsummaries |].
  exists (Configure (default "" (GEMINI_API_KEY env)) :: new).
  split; [rewrite Hcalls; now rewrite <- List.app_assoc |].
  constructor; [reflexivity | exact Hnew].
Qed.

Lemma other_setup_errors_end_script_with_error_witness :
  (script (unlistable_env (OtherError "[Errno 13] Permission denied"))
     (fresh_world {["a.pdf"]})).1 = 1.
Proof.
  destruct (other_setup_errors_end_script_with_error
              (unlistable_env (OtherError "[Errno 13] Permission denied"))
              (fresh_world {["a.pdf"]}) "[Errno 13] Permission denied")
    as (Hstatus & _).
  - reflexivity.
  - right. split; [now exists "Summarise." |]. split; [now exists [] |].
    reflexivity.
  - exact Hstatus.
Defined.

(** X14: the early return on a missing input directory comes after the
    upload of the manual and before its delete: when the manual has been
    uploaded and listing the directory raises "file not found", [main]
    returns having made only the upload call, and the manual stays alive
    on the service. *)
Theorem manual_not_deleted_on_missing_directory
    (env : Env) (w : World) (prompt msg : string)
    (entries : list (gmap string string)) :
  master_prompt_file env = inr prompt ->
  bibtex_file env = inr entries ->
  manual_exists env = true ->
  upload_fault env SIUNITX_MANUAL = None ->
  listdir_fault env = Some (FileNotFoundError msg) ->
  let run := main env w in
  run.1 = inr tt /\
  calls run.2 = calls w ++ [UploadFile Manual SIUNITX_MANUAL "siunitx.pdf"] /\
  remote run.2 = {[name (fresh_file (next_file w) "siunitx.pdf")]} ∪ remote w.
Proof.
  intros Hprompt Hbib Hexists Hupload Hlist run. subst run.
  change (Run.post (main env) w (fun r w' =>
            r = inr tt /\
            calls w' =
              calls w ++ [UploadFile Manual SIUNITX_MANUAL "siunitx.pdf"] /\
            remote w' =
              {[name (fresh_file (next_file w) "siunitx.pdf")]} ∪ remote w)).
  MainFacts.run_main; LoopFacts.world_simpl; try congruence; simplify_eq.
  all: repeat split.
Qed.

Lemma manual_not_deleted_on_missing_directory_witness :
  let run :=
    main (unlistable_env (FileNotFoundError "papers_to_read"))
         (fresh_world {["a.pdf"]}) in
  calls run.2 = [UploadFile Manual "assets/siunitx.pdf" "siunitx.pdf"] /\
  remote run.2 = {["files/0"]} ∪ ∅.
Proof.
  intros run.
  destruct (manual_not_deleted_on_missing_directory
              (unlistable_env (FileNotFoundError "papers_to_read"))
              (fresh_world {["a.pdf"]}) "Summarise." "papers_to_read" [])
    as (_ & Hcalls & Hremote); try reflexivity.
  split; [exact Hcalls | exact Hremote].
Defined.

(** X15: a paper leaves the input directory only after its record has
    been written.  Whatever fails, an iteration ends in one of two
    states: either both directories are as they were, or the paper has
    moved from the input directory to the archive and the summaries file
    has gained the paper's complete record. *)
Theorem archived_only_after_saved
    (env : Env) (master_prompt : string)
    (pdf_citekey_map : gmap string string)
    (siunitx_manual_file : option File) (pdf_file : string) (w : World) :
  let w' :=
    (process_paper env master_prompt pdf_citekey_map siunitx_manual_file
       pdf_file w).2 in
  (papers_to_read w' = papers_to_read w /\ read_papers w' = read_papers w)
  \/
  (exists pending archive summary,
     papers_to_read w = Some pending /\ read_papers w = Some archive /\
     pdf_file ∈ pending /\
     papers_to_read w' = Some (pending ∖ {[pdf_file]}) /\
     read_papers w' = Some ({[pdf_file]} ∪ archive) /\
     summaries w' =
       Some (contents w
               +:+ summary_record (resolve_citekey pdf_citekey_map pdf_file)
                     summary)).
Proof.
  intros w'. subst w'.
  change (Run.post
            (process_paper env master_prompt pdf_citekey_map
               siunitx_manual_file pdf_file) w
            (fun _ w' =>
               (papers_to_read w' = papers_to_read w /\
                read_papers w' = read_papers w)
               \/
               (exists pending archive summary,
                  papers_to_read w = Some pending /\
                  read_papers w = Some archive /\
                  pdf_file ∈ pending /\
                  papers_to_read w' = Some (pending ∖ {[pdf_file]}) /\
                  read_papers w' = Some ({[pdf_file]} ∪ archive) /\
                  summaries w' =
                    Some (contents w
                            +:+ summary_record
                                  (resolve_citekey pdf_citekey_map pdf_file)
                                  summary)))).
  RunRules.run; LoopFacts.world_simpl; LoopFacts.decide_hyps.
  all: first
    [ left; split; (reflexivity || assumption)
    | right;
      match goal with
      | Hp : papers_to_read _ = Some ?p, Ha : read_papers _ = Some ?a,
        Ht : text _ = inr ?s |- _ => exists p, a, s
      end;
      split; [reflexivity || assumption |];
      split; [reflexivity || assumption |];
      split; [assumption |]; split; [reflexivity |]; split; [reflexivity |];
      f_equal; close_contents ].
Qed.
